(** * OptimizedCricketPredictor (server/optimizedPredictor.ts)

    A shallow embedding of the tiered prediction service: the prediction
    cache (a JS [Map] from string keys to timestamped results, kept in
    insertion order), the fast tier (Elo only), the balanced tier (Elo then
    the ML feature ensemble), the smart router, the static fallback and the
    cache statistics.

    Effects are modelled as the code has them: a state monad over the
    world (the wall clock read by [Date.now()] and the shared cache map)
    with JS exceptions as an explicit [Throw] outcome, so that a [try] /
    [catch] is a combinator of the monad.  The two collaborators
    ([CricketEloRatingService.calculateWinProbability] and
    [CricketPredictionFeaturesService.generateEnhancedPrediction]) are
    abstract: a record of functions that may fail, each [await] of them
    taking a fixed latency on the clock.  JS numbers used as
    probabilities are rationals [Q]; millisecond clocks are [Z]. *)

From Stdlib Require Import ZArith QArith Lqa String Ascii List Bool Lia.
Import ListNotations.
Open Scope string_scope.

(** ** Data model *)

Inductive Format := t20 | odi | test.

Definition format_str (f : Format) : string :=
  match f with t20 => "t20" | odi => "odi" | test => "test" end.

(** [PredictionInput] (declared in cricketPredictionFeatures.ts); the
    optional [tournament] and [seriesContext] are read with [?.]. *)
Record PredictionInput := mkPredictionInput {
  team1Id : string;
  team2Id : string;
  team1Name : string;
  team2Name : string;
  venue : string;
  format : Format;
  matchDate : string;
  tournament : option string;
  seriesContext : option string
}.

Record FastPredictionResult := mkResult {
  team1WinProb : Q;
  team2WinProb : Q;
  drawProb : Q;
  confidence : Q;
  keyFactors : list string;
  riskFactors : list string;
  modelVersion : string;
  processingTimeMs : Z;
  engineUsed : string;
  accuracy : Z;
  fromCache : option bool
}.

(** [{ ...r, fromCache: true }] *)
Definition with_fromCache (b : bool) (r : FastPredictionResult) : FastPredictionResult :=
  {| team1WinProb := team1WinProb r; team2WinProb := team2WinProb r;
     drawProb := drawProb r; confidence := confidence r;
     keyFactors := keyFactors r; riskFactors := riskFactors r;
     modelVersion := modelVersion r; processingTimeMs := processingTimeMs r;
     engineUsed := engineUsed r; accuracy := accuracy r; fromCache := Some b |}.

(** What [calculateWinProbability] resolves to:
    [{team1WinProb, team2WinProb, drawProb}]. *)
Record WinProbability := mkWinProbability {
  wp_team1WinProb : Q;
  wp_team2WinProb : Q;
  wp_drawProb : Q
}.

(** The priors passed to the ensemble: [{team1, team2, draw}]. *)
Record BaseProbs := mkBaseProbs { base_team1 : Q; base_team2 : Q; base_draw : Q }.

(** The fields of [ComprehensivePrediction] the predictor reads. *)
Record ComprehensivePrediction := mkComprehensivePrediction {
  enhancedTeam1WinProb : Q;
  enhancedTeam2WinProb : Q;
  enhancedDrawProb : Q;
  confidenceLevel : Q;
  cp_modelVersion : string
}.

Record CacheEntry := mkCacheEntry { result : FastPredictionResult; timestamp : Z }.

(** ** The JS [Map] used as the cache: an association list in iteration
    (insertion) order. *)
Definition Cache := list (string * CacheEntry).

Fixpoint map_get (k : string) (c : Cache) : option CacheEntry :=
  match c with
  | [] => None
  | (k', v) :: t => if String.eqb k k' then Some v else map_get k t
  end.

(** [Map.prototype.set]: an existing key keeps its position, a new key is
    appended at the end of the iteration order. *)
Fixpoint map_set (k : string) (v : CacheEntry) (c : Cache) : Cache :=
  match c with
  | [] => [(k, v)]
  | (k', v') :: t =>
      if String.eqb k k' then (k', v) :: t else (k', v') :: map_set k v t
  end.

Definition map_delete (k : string) (c : Cache) : Cache :=
  filter (fun p => negb (String.eqb (fst p) k)) c.

Definition map_keys (c : Cache) : list string := map fst c.

Definition map_size (c : Cache) : nat := length c.

(** ** The world and the monad *)

Record World := mkWorld { clock : Z; predictionCache : Cache }.

Inductive Outcome (A : Type) := Ok (a : A) | Throw (e : string).
Arguments Ok {A} a.
Arguments Throw {A} e.

Definition M (A : Type) := World -> Outcome A * World.

Definition ret {A} (a : A) : M A := fun w => (Ok a, w).

Definition bind {A B} (m : M A) (k : A -> M B) : M B :=
  fun w => match m w with
           | (Ok a, w') => k a w'
           | (Throw e, w') => (Throw e, w')
           end.

Notation "x <- m ;; k" := (bind m (fun x => k))
  (at level 61, m at next level, right associativity).

(** [try { m } catch (error) { h(error) }]: effects done before the throw
    are kept. *)
Definition try_catch {A} (m : M A) (h : string -> M A) : M A :=
  fun w => match m w with
           | (Ok a, w') => (Ok a, w')
           | (Throw e, w') => h e w'
           end.

Definition date_now : M Z := fun w => (Ok (clock w), w).

Definition get_cache : M Cache := fun w => (Ok (predictionCache w), w).

Definition put_cache (c : Cache) : M unit :=
  fun w => (Ok tt, {| clock := clock w; predictionCache := c |}).

(** ** Collaborators *)

(** The services the predictor awaits.  Each call sees the clock at the
    moment it is issued (ratings may change over time), may fail ([None]
    is a rejected promise), and resolves after its latency. *)
Record Services := mkServices {
  calculateWinProbability : Z -> string -> string -> Format -> option WinProbability;
  elo_latency : Z;
  generateEnhancedPrediction : Z -> PredictionInput -> BaseProbs -> option ComprehensivePrediction;
  ml_latency : Z
}.

Definition advance (d : Z) (w : World) : World :=
  {| clock := clock w + d; predictionCache := predictionCache w |}.

Definition await_option {A} (d : Z) (r : option A) (msg : string) : M A :=
  fun w => match r with
           | Some a => (Ok a, advance d w)
           | None => (Throw msg, advance d w)
           end.

Definition awaitWinProbability (svc : Services) (input : PredictionInput) : M WinProbability :=
  fun w => await_option (elo_latency svc)
             (calculateWinProbability svc (clock w) (team1Id input) (team2Id input) (format input))
             "rating unavailable" w.

Definition awaitEnhancedPrediction (svc : Services) (input : PredictionInput)
    (b : BaseProbs) : M ComprehensivePrediction :=
  fun w => await_option (ml_latency svc)
             (generateEnhancedPrediction svc (clock w) input b)
             "enhancement unavailable" w.

(** ** OptimizedCricketPredictor *)

Definition CACHE_TTL : Z := 5 * 60 * 1000.

(** The [||] default of a JS number: [0] (and [NaN]) is falsy. *)
Definition js_or (x d : Q) : Q := if Qeq_bool x 0 then d else x.

Definition getCachedPrediction (key : string) : M (option FastPredictionResult) :=
  c <- get_cache ;;
  t <- date_now ;;
  match map_get key c with
  | Some cached =>
      if (t - timestamp cached <? CACHE_TTL)%Z
      then ret (Some (with_fromCache true (result cached)))
      else ret None
  | None => ret None
  end.

Definition cacheResult (key : string) (r : FastPredictionResult) : M unit :=
  t <- date_now ;;
  c <- get_cache ;;
  let c1 := map_set key (mkCacheEntry r t) c in
  if Nat.ltb 100 (map_size c1) then
    match map_keys c1 with
    | oldestKey :: _ => put_cache (map_delete oldestKey c1)
    | [] => put_cache c1
    end
  else put_cache c1.

Definition generateBasicFallback (input : PredictionInput) (processingTime : Z)
    : FastPredictionResult :=
  {| team1WinProb := 52 # 100;
     team2WinProb := 46 # 100;
     drawProb := 2 # 100;
     confidence := 60 # 100;
     keyFactors := ["Basic statistical analysis"];
     riskFactors := ["Limited data available"; "Fallback prediction"];
     modelVersion := "fallback-v1.0";
     processingTimeMs := processingTime;
     engineUsed := "Basic Fallback";
     accuracy := 65;
     fromCache := None |}.

Definition fastCacheKey (input : PredictionInput) : string :=
  "fast_" ++ team1Id input ++ "_" ++ team2Id input ++ "_" ++ format_str (format input).

Definition balancedCacheKey (input : PredictionInput) : string :=
  "balanced_" ++ team1Id input ++ "_" ++ team2Id input ++ "_"
    ++ format_str (format input) ++ "_" ++ venue input.

(** The accuracy literals of the two tiers
    ([input.format === 't20' ? 78 : input.format === 'odi' ? 75 : 72]). *)
Definition fastAccuracy (f : Format) : Z :=
  match f with t20 => 78 | odi => 75 | _ => 72 end.

Definition balancedAccuracy (f : Format) : Z :=
  match f with t20 => 82 | odi => 79 | _ => 75 end.

(** The result literal of the fast tier. *)
Definition fastResult (input : PredictionInput) (eloResult : WinProbability)
    (processingTime : Z) : FastPredictionResult :=
  {| team1WinProb := wp_team1WinProb eloResult;
     team2WinProb := wp_team2WinProb eloResult;
     drawProb := js_or (wp_drawProb eloResult) (2 # 100);
     confidence := 75 # 100;
     keyFactors := ["Team strength (Elo ratings)"; "Historical performance"];
     riskFactors := match format input with
                    | test => ["Weather dependency"; "Match duration"]
                    | _ => []
                    end;
     modelVersion := "fast-v1.0";
     processingTimeMs := processingTime;
     engineUsed := "Elo Rating System";
     accuracy := fastAccuracy (format input);
     fromCache := None |}.

(** The body of [generateFastPrediction] after a cache miss. *)
Definition computeFastPrediction (svc : Services) (input : PredictionInput)
    (cacheKey : string) : M FastPredictionResult :=
  startTime <- date_now ;;
  try_catch
    (eloResult <- awaitWinProbability svc input ;;
     t <- date_now ;;
     let r := fastResult input eloResult (t - startTime) in
     _ <- cacheResult cacheKey r ;;
     ret r)
    (fun _ => t <- date_now ;; ret (generateBasicFallback input (t - startTime))).

Definition generateFastPrediction (svc : Services) (input : PredictionInput)
    : M FastPredictionResult :=
  let cacheKey := fastCacheKey input in
  cached <- getCachedPrediction cacheKey ;;
  match cached with
  | Some r => ret r
  | None => computeFastPrediction svc input cacheKey
  end.

(** The result literal of the balanced tier. *)
Definition balancedResult (input : PredictionInput)
    (enhancedResult : ComprehensivePrediction) (processingTime : Z) : FastPredictionResult :=
  {| team1WinProb := enhancedTeam1WinProb enhancedResult;
     team2WinProb := enhancedTeam2WinProb enhancedResult;
     drawProb := js_or (enhancedDrawProb enhancedResult) (2 # 100);
     confidence := js_or (confidenceLevel enhancedResult) (82 # 100);
     keyFactors := ["Team strength"; "Venue factors"; "Recent form"; "Player analysis"];
     riskFactors := [];
     modelVersion := cp_modelVersion enhancedResult;
     processingTimeMs := processingTime;
     engineUsed := "Elo + ML Ensemble";
     accuracy := balancedAccuracy (format input);
     fromCache := None |}.

(** The body of [generateBalancedPrediction] after a cache miss. *)
Definition computeBalancedPrediction (svc : Services) (input : PredictionInput)
    (cacheKey : string) : M FastPredictionResult :=
  startTime <- date_now ;;
  try_catch
    (baseProbs <- awaitWinProbability svc input ;;
     enhancedResult <- awaitEnhancedPrediction svc input
        (mkBaseProbs (wp_team1WinProb baseProbs) (wp_team2WinProb baseProbs)
           (wp_drawProb baseProbs)) ;;
     t <- date_now ;;
     let r := balancedResult input enhancedResult (t - startTime) in
     _ <- cacheResult cacheKey r ;;
     ret r)
    (fun _ => generateFastPrediction svc input).

Definition generateBalancedPrediction (svc : Services) (input : PredictionInput)
    : M FastPredictionResult :=
  let cacheKey := balancedCacheKey input in
  cached <- getCachedPrediction cacheKey ;;
  match cached with
  | Some r => ret r
  | None => computeBalancedPrediction svc input cacheKey
  end.

(** ** String helpers

    A string is the UTF-8 encoding of the JS text.  [String.prototype.toLowerCase]
    applies the Unicode case mappings of the engine, some of which change
    the length of the text (U+0130 becomes "i" followed by U+0307): the
    code only calls it, so it is a parameter of the development, the class
    [JsRuntime] whose instance is the JS engine.  Its one law: on ASCII
    text every engine lowers A-Z and keeps every other character, as
    [ascii_toLowerCase] does.  That function itself is the instance the
    concrete runs below use, on ASCII inputs. *)
Definition lower_ascii (c : ascii) : ascii :=
  let n := nat_of_ascii c in
  if andb (Nat.leb 65 n) (Nat.leb n 90) then ascii_of_nat (n + 32) else c.

Fixpoint ascii_toLowerCase (s : string) : string :=
  match s with
  | EmptyString => EmptyString
  | String c s' => String (lower_ascii c) (ascii_toLowerCase s')
  end.

(** ASCII text: every byte below 128. *)
Definition ascii_text (s : string) : bool :=
  forallb (fun c => Nat.ltb (nat_of_ascii c) 128) (list_ascii_of_string s).

Class JsRuntime := {
  toLowerCase : string -> string;
  toLowerCase_ascii : forall s, ascii_text s = true -> toLowerCase s = ascii_toLowerCase s
}.

(** [String.prototype.includes] on the encodings: for valid UTF-8 text
    and an ASCII needle, a byte-level match is a match of code points. *)
Fixpoint includes (s needle : string) : bool :=
  String.prefix needle s ||
  match s with
  | EmptyString => false
  | String _ s' => includes s' needle
  end.

(** [o?.toLowerCase().includes(needle)], [undefined] being falsy. *)
Definition opt_includes `{JsRuntime} (o : option string) (needle : string) : bool :=
  match o with
  | Some s => includes (toLowerCase s) needle
  | None => false
  end.

Definition isImportantMatch `{JsRuntime} (input : PredictionInput) : bool :=
  opt_includes (tournament input) "world" ||
  opt_includes (tournament input) "final" ||
  opt_includes (seriesContext input) "final" ||
  opt_includes (seriesContext input) "semi".

Inductive TimeConstraint := tc_fast | tc_balanced | tc_accurate.

Definition generateSmartPrediction `{JsRuntime} (svc : Services) (input : PredictionInput)
    (timeConstraint : TimeConstraint) : M FastPredictionResult :=
  match timeConstraint with
  | tc_fast => generateFastPrediction svc input
  | tc_accurate => generateBalancedPrediction svc input
  | tc_balanced =>
      if isImportantMatch input
      then generateBalancedPrediction svc input
      else generateFastPrediction svc input
  end.

Inductive Mode := mode_fast | mode_balanced | mode_smart.

(** [predict(storage, input, mode = 'smart')]; the smart path uses the
    default time constraint ['balanced']. *)
Definition predict `{JsRuntime} (svc : Services) (input : PredictionInput) (mode : Mode)
    : M FastPredictionResult :=
  match mode with
  | mode_fast => generateFastPrediction svc input
  | mode_balanced => generateBalancedPrediction svc input
  | mode_smart => generateSmartPrediction svc input tc_balanced
  end.

Definition clearCache : M unit := put_cache [].

Record CacheStats := mkCacheStats { size : nat; hitRate : Q }.

Definition getCacheStats : M CacheStats :=
  c <- get_cache ;;
  ret {| size := map_size c; hitRate := 85 # 100 |}.

(** ** Sequences of cache operations *)

(** A cache operation issued at wall-clock time [t]. *)
Inductive CacheOp :=
| op_put (t : Z) (key : string) (r : FastPredictionResult)
| op_get (t : Z) (key : string).

Definition set_clock (t : Z) : M unit :=
  fun w => (Ok tt, {| clock := t; predictionCache := predictionCache w |}).

Fixpoint run_cache_ops (ops : list CacheOp) : M unit :=
  match ops with
  | [] => ret tt
  | op_put t k r :: ops' => _ <- set_clock t ;; _ <- cacheResult k r ;; run_cache_ops ops'
  | op_get t k :: ops' => _ <- set_clock t ;; _ <- getCachedPrediction k ;; run_cache_ops ops'
  end.

Definition CACHE_CAPACITY : nat := 100.

(** The eviction policy read as a FIFO queue of keys ordered by first
    insertion: a key already queued keeps its place, a new key joins at
    the back, and when the queue is full its front (the key admitted
    earliest) leaves. *)
Definition fifo_admit (q : list string) (k : string) : list string :=
  if existsb (String.eqb k) q then q
  else if Nat.ltb (length q) CACHE_CAPACITY then (q ++ [k])%list else (tl q ++ [k])%list.

Fixpoint fifo_queue (ops : list CacheOp) (q : list string) : list string :=
  match ops with
  | [] => q
  | op_put _ k _ :: ops' => fifo_queue ops' (fifo_admit q k)
  | op_get _ _ :: ops' => fifo_queue ops' q
  end.

(** ** The prediction routes of [registerRoutes] *)

(** What a handler sends: [res.json(prediction)] (status 200) or
    [res.status(code).json({ error })]. *)
Inductive HttpResponse :=
| res_json (prediction : FastPredictionResult)
| res_error (status : nat) (error : string).

(** The mode of [POST /api/predict/smart]: [req.query.mode || 'smart']
    (an absent or empty query value is falsy), then the [switch (mode)] of
    [predict], whose [case 'smart'] shares the [default] branch. *)
Definition mode_of_query (query_mode : option string) : Mode :=
  let mode := match query_mode with
              | Some s => if String.eqb s "" then "smart" else s
              | None => "smart"
              end in
  if String.eqb mode "fast" then mode_fast
  else if String.eqb mode "balanced" then mode_balanced
  else mode_smart.

(** [POST /api/predict/smart] on a body that is a [PredictionInput]
    (string ids, names, venue and date, a format, and a string or
    absent tournament and series context).  The handler passes the raw
    [req.body] on unchecked; other bodies are outside this model, e.g.
    a number as [tournament] in smart mode, on which
    [tournament?.toLowerCase()] throws a [TypeError] that the handler
    answers with status 500. *)
Definition smartRoute `{JsRuntime} (svc : Services) (input : PredictionInput)
    (query_mode : option string) : M HttpResponse :=
  try_catch
    (prediction <- predict svc input (mode_of_query query_mode) ;; ret (res_json prediction))
    (fun _ => ret (res_error 500 "Failed to generate smart prediction")).

(** ** Auxiliary views of the code used by the proofs *)

(** The map written by [cacheResult]. *)
Definition cache_after_insert (key : string) (v : CacheEntry) (c : Cache) : Cache :=
  let c1 := map_set key v c in
  if Nat.ltb 100 (map_size c1) then
    match map_keys c1 with
    | oldestKey :: _ => map_delete oldestKey c1
    | [] => c1
    end
  else c1.

(** What a [getCachedPrediction] returns: a live entry, marked as cached. *)
Definition lookup_live (key : string) (w : World) : option FastPredictionResult :=
  match map_get key (predictionCache w) with
  | Some e => if (clock w - timestamp e <? CACHE_TTL)%Z
              then Some (with_fromCache true (result e)) else None
  | None => None
  end.

(** ** The probability invariant *)

Definition prob_ok (a b c : Q) : Prop :=
  (0 <= a <= 1 /\ 0 <= b <= 1 /\ 0 <= c <= 1 /\ 99 # 100 <= a + b + c <= 101 # 100)%Q.

Definition result_ok (r : FastPredictionResult) : Prop :=
  prob_ok (team1WinProb r) (team2WinProb r) (drawProb r).

Definition cache_ok (c : Cache) : Prop :=
  forall x, In x c -> result_ok (result (snd x)).

(** The rating and feature providers return distributions satisfying the
    invariant, with a non-zero draw probability. *)
Definition providers_nonzero_draw (svc : Services) : Prop :=
  (forall t a b f p, calculateWinProbability svc t a b f = Some p ->
     prob_ok (wp_team1WinProb p) (wp_team2WinProb p) (wp_drawProb p) /\
     ~ (wp_drawProb p == 0)%Q) /\
  (forall t input b e, generateEnhancedPrediction svc t input b = Some e ->
     prob_ok (enhancedTeam1WinProb e) (enhancedTeam2WinProb e) (enhancedDrawProb e) /\
     ~ (enhancedDrawProb e == 0)%Q).

(** ** Concrete services and requests *)

Definition demo_clock : Z := 1700000000000.

Definition world0 : World := {| clock := demo_clock; predictionCache := [] |}.

Definition demo_input (tournament_ seriesContext_ : option string) : PredictionInput :=
  {| team1Id := "ind"; team2Id := "aus"; team1Name := "India"; team2Name := "Australia";
     venue := "Eden Gardens"; format := t20; matchDate := "2025-03-09";
     tournament := tournament_; seriesContext := seriesContext_ |}.

Definition demo_ensemble : ComprehensivePrediction :=
  {| enhancedTeam1WinProb := 55 # 100; enhancedTeam2WinProb := 43 # 100;
     enhancedDrawProb := 2 # 100; confidenceLevel := 85 # 100;
     cp_modelVersion := "ensemble-v2" |}.

(** A rating service in the style of the spec's limited-overs model: no
    mass reserved for the draw. *)
Definition demo_services : Services :=
  {| calculateWinProbability := fun _ _ _ _ => Some (mkWinProbability (6 # 10) (4 # 10) 0);
     elo_latency := 40;
     generateEnhancedPrediction := fun _ _ _ => Some demo_ensemble;
     ml_latency := 150 |}.

(** A rating service reserving a draw mass. *)
Definition draw_services : Services :=
  {| calculateWinProbability := fun _ _ _ _ => Some (mkWinProbability (59 # 100) (39 # 100) (2 # 100));
     elo_latency := 40;
     generateEnhancedPrediction := fun _ _ _ => Some demo_ensemble;
     ml_latency := 150 |}.

(** Both collaborators down. *)
Definition outage_services : Services :=
  {| calculateWinProbability := fun _ _ _ _ => None;
     elo_latency := 40;
     generateEnhancedPrediction := fun _ _ _ => None;
     ml_latency := 150 |}.

(** Ratings up, feature ensemble down. *)
Definition ml_down_services : Services :=
  {| calculateWinProbability := fun _ _ _ _ => Some (mkWinProbability (59 # 100) (39 # 100) (2 # 100));
     elo_latency := 40;
     generateEnhancedPrediction := fun _ _ _ => None;
     ml_latency := 150 |}.

(** The importance test as the spec words it: every word of the
    vocabulary is searched, case-insensitively, in both fields. *)
Definition spec_importance_markers : list string := ["world"; "final"; "semi"].

Definition spec_isImportant `{JsRuntime} (input : PredictionInput) : bool :=
  existsb (fun word => opt_includes (tournament input) word ||
                       opt_includes (seriesContext input) word)
    spec_importance_markers.

(** ** The two cached tiers side by side *)

Inductive Tier := tier_fast | tier_balanced.

Definition runTier (svc : Services) (tier : Tier) (input : PredictionInput) : M FastPredictionResult :=
  match tier with
  | tier_fast => generateFastPrediction svc input
  | tier_balanced => generateBalancedPrediction svc input
  end.

Definition tierCacheKey (tier : Tier) (input : PredictionInput) : string :=
  match tier with
  | tier_fast => fastCacheKey input
  | tier_balanced => balancedCacheKey input
  end.

Definition computeTier (svc : Services) (tier : Tier) (input : PredictionInput) : M FastPredictionResult :=
  match tier with
  | tier_fast => computeFastPrediction svc input (fastCacheKey input)
  | tier_balanced => computeBalancedPrediction svc input (balancedCacheKey input)
  end.

Definition demo_fast_result : FastPredictionResult :=
  fastResult (demo_input None None) (mkWinProbability (59 # 100) (39 # 100) (2 # 100)) 40.

Definition demo_world1 : World :=
  {| clock := demo_clock + 40;
     predictionCache := [(fastCacheKey (demo_input None None),
                          mkCacheEntry demo_fast_result (demo_clock + 40))] |}.

(** Single-character cache keys and a run of 100 insertions, one read of
    the first key, and one more insertion. *)
Definition demo_key (n : nat) : string := String (ascii_of_nat (48 + n)) EmptyString.

Definition demo_ops : list CacheOp :=
  (map (fun n => op_put demo_clock (demo_key n) demo_fast_result) (seq 0 100) ++
   [op_get (demo_clock + 10) (demo_key 0); op_put (demo_clock + 20) "new" demo_fast_result])%list.

(** The cache after the first 100 insertions of [demo_ops]: full. *)
Definition demo_full_world : World := snd (run_cache_ops (firstn 100 demo_ops) world0).

(** * Fixtures: the sports API service (server/sportsApi.ts), the
    dashboard statistics route and the fixtures pages of the client

    The EntitySport client, the prediction enhancer and the JS [Date]
    functions are abstract: a record of their results.  Strings are UTF-8
    text, as for the predictor. *)

(** [n.toString()] and [`${n}`] for a non-negative integer. *)
Fixpoint decimal_digits (fuel n : nat) (acc : string) : string :=
  match fuel with
  | O => acc
  | S f =>
      let acc' := String (ascii_of_nat (48 + n mod 10)) acc in
      if Nat.ltb n 10 then acc' else decimal_digits f (n / 10) acc'
  end.

Definition number_to_string (n : nat) : string := decimal_digits (S n) n "".

(** [Fixture] (shared/schema.ts); [createdAt] and [updatedAt] are the
    milliseconds of their [Date]s. *)
Module Schema.
Record Fixture := mkFixture {
  id : string;
  sport : string;
  category : string;
  series : string;
  team1 : string;
  team2 : string;
  venue : string;
  date : string;
  time : string;
  status : string;
  tournament : string;
  externalId : string;
  createdAt : Z;
  updatedAt : Z
}.
End Schema.

(** The parts of [EntitySportMatch] (entitySportService.ts) the conversion
    reads; every object and string read through [?.] is optional. *)
Module EntitySportCompetition.
Record t := mk { category : option string; title : option string; abbr : option string }.
End EntitySportCompetition.

Module EntitySportTeam.
Record t := mk { title : option string; abbr : option string }.
End EntitySportTeam.

Module EntitySportVenue.
Record t := mk { name : option string }.
End EntitySportVenue.

Module EntitySportMatch.
Record t := mk {
  mid : nat;
  competition : option EntitySportCompetition.t;
  date_start : string;
  status : string;
  teama : option EntitySportTeam.t;
  teamb : option EntitySportTeam.t;
  venue : option EntitySportVenue.t
}.
End EntitySportMatch.

(** What the service depends on. *)
Record SportsEnv := mkSportsEnv {
  (** [await new EntitySportService().getUpcomingMatches()]; [None] when
      it rejects (or the client cannot be built). *)
  getUpcomingMatches : option (list EntitySportMatch.t);
  (** [await predictionService.enhanceFixtureWithPredictions(fixture)];
      [None] when it rejects. *)
  enhanceFixtureWithPredictions : Schema.Fixture -> option Schema.Fixture;
  (** [new Date(s)]: milliseconds, [None] for an Invalid Date. *)
  parseDate : string -> option Z;
  (** [d.toISOString().split('T')[0]] of a valid date. *)
  isoDate : Z -> string;
  (** [d.toTimeString().slice(0, 5)]. *)
  localTime : Z -> string;
  (** [new Date()] *)
  now : Z;
  (** The [toISOString().split('T')[0]] of today advanced by [n] local
      days with [setDate(getDate() + n)]. *)
  isoDateInDays : nat -> string
}.

(** [o?.x] followed by [|| d] on a string: [undefined] and [""] are
    falsy. *)
Definition str_or (o : option string) (d : string) : string :=
  match o with
  | Some s => if String.eqb s "" then d else s
  | None => d
  end.

Definition truthy (o : option string) : bool :=
  match o with Some s => negb (String.eqb s "") | None => false end.

(** [o === s] for an optional string. *)
Definition opt_str_eqb (o : option string) (s : string) : bool :=
  match o with Some x => String.eqb x s | None => false end.

Definition opt_field {A} (o : option A) (f : A -> option string) : option string :=
  match o with Some a => f a | None => None end.

(** The callback of [convertEntitySportMatchesToFixtures]; [None] is the
    [RangeError] thrown by [toISOString] on an Invalid Date. *)
Definition convertMatch `{JsRuntime} (env : SportsEnv) (m : EntitySportMatch.t) : option Schema.Fixture :=
  let category :=
    match EntitySportMatch.competition m with
    | Some c =>
        if truthy (EntitySportCompetition.category c) then
          if opt_str_eqb (EntitySportCompetition.category c) "domestic" then "domestic"
          else if opt_includes (EntitySportCompetition.title c) "t20" ||
                  opt_includes (EntitySportCompetition.abbr c) "t20"
          then "t20" else "international"
        else "international"
    | None => "international"
    end in
  match parseDate env (EntitySportMatch.date_start m) with
  | None => None
  | Some matchDate =>
      let date := isoDate env matchDate in
      let time := localTime env matchDate in
      let status := if String.eqb (EntitySportMatch.status m) "live" then "live"
                    else if String.eqb (EntitySportMatch.status m) "result" then "completed"
                    else "upcoming" in
      let comp := EntitySportMatch.competition m in
      Some {| Schema.id := "entitysport_" ++ number_to_string (EntitySportMatch.mid m);
              Schema.sport := "cricket";
              Schema.category := category;
              Schema.series := str_or (opt_field comp EntitySportCompetition.title) "Unknown Series";
              Schema.team1 := str_or (opt_field (EntitySportMatch.teama m) EntitySportTeam.title)
                                (str_or (opt_field (EntitySportMatch.teama m) EntitySportTeam.abbr)
                                   "Team A");
              Schema.team2 := str_or (opt_field (EntitySportMatch.teamb m) EntitySportTeam.title)
                                (str_or (opt_field (EntitySportMatch.teamb m) EntitySportTeam.abbr)
                                   "Team B");
              Schema.venue := str_or (opt_field (EntitySportMatch.venue m) EntitySportVenue.name)
                                "Unknown Venue";
              Schema.date := date;
              Schema.time := time;
              Schema.status := status;
              Schema.tournament := str_or (opt_field comp EntitySportCompetition.abbr)
                                     (str_or (opt_field comp EntitySportCompetition.title)
                                        "Unknown Tournament");
              Schema.externalId := number_to_string (EntitySportMatch.mid m);
              Schema.createdAt := now env;
              Schema.updatedAt := now env |}
  end.

(** [entityMatches.map(...)]: the first throw aborts the whole map. *)
Fixpoint convertEntitySportMatchesToFixtures `{JsRuntime} (env : SportsEnv) (ms : list EntitySportMatch.t)
    : option (list Schema.Fixture) :=
  match ms with
  | [] => Some []
  | m :: ms' =>
      match convertMatch env m with
      | None => None
      | Some f =>
          match convertEntitySportMatchesToFixtures env ms' with
          | None => None
          | Some fs => Some (f :: fs)
          end
      end
  end.

(** The own properties of [Object.prototype]: [obj[category]] on an
    object literal finds one of these for such a [category]. *)
Definition object_prototype_keys : list string :=
  ["constructor"; "__defineGetter__"; "__defineSetter__"; "hasOwnProperty";
   "__lookupGetter__"; "__lookupSetter__"; "isPrototypeOf"; "propertyIsEnumerable";
   "toString"; "valueOf"; "__proto__"; "toLocaleString"].

Definition cricketVenues : list string :=
  ["Lord's Cricket Ground"; "Eden Gardens"; "MCG"; "Oval";
   "Wankhede Stadium"; "Old Trafford"; "Headingley"; "WACA"].

Definition internationalTeams : list (string * string) :=
  [("India", "Australia"); ("England", "New Zealand"); ("Pakistan", "South Africa");
   ("Bangladesh", "Sri Lanka"); ("West Indies", "Afghanistan")].

Definition internationalTournaments : list string :=
  ["Test Championship"; "ODI Series"; "T20I Series"].

(** [teams[category] || teams.international].  A key inherited from
    [Object.prototype] yields a function or an object that is truthy but
    not a list of pairs: [categoryTeams[i % categoryTeams.length]] is
    then [undefined] and [teamPair.team1] throws a [TypeError] at
    [i = 0], written [None]. *)
Definition mockCricketTeams (category : string) : option (list (string * string)) :=
  if String.eqb category "international" then Some internationalTeams
  else if String.eqb category "domestic" then
    Some [("Mumbai Indians", "Chennai Super Kings"); ("Royal Challengers", "Delhi Capitals");
          ("Yorkshire", "Lancashire"); ("Victoria", "New South Wales")]
  else if String.eqb category "t20" then
    Some [("Barbados Royals", "Guyana Amazon Warriors"); ("Jamaica Tallawahs", "St Lucia Kings");
          ("Melbourne Stars", "Sydney Sixers"); ("Perth Scorchers", "Adelaide Strikers")]
  else if existsb (String.eqb category) object_prototype_keys then None
  else Some internationalTeams.

(** [tournaments[category] || tournaments.international], read only
    once the team pair exists. *)
Definition mockCricketTournaments (category : string) : list string :=
  if String.eqb category "international" then internationalTournaments
  else if String.eqb category "domestic" then ["IPL"; "County Championship"; "Sheffield Shield"]
  else if String.eqb category "t20" then ["CPL"; "BBL"; "Vitality Blast"; "IPL"]
  else internationalTournaments.

(** The fixture pushed at iteration [i] of the loop. *)
Definition mockCricketFixture (env : SportsEnv) (category : string)
    (categoryTeams : list (string * string)) (categoryTournaments : list string) (i : nat)
    : Schema.Fixture :=
  let teamPair := nth (i mod length categoryTeams) categoryTeams ("", "") in
  let tournament := nth (i mod length categoryTournaments) categoryTournaments "" in
  {| Schema.id := "cricket_" ++ category ++ "_" ++ number_to_string i;
     Schema.sport := "cricket";
     Schema.category := category;
     Schema.series := fst teamPair ++ " vs " ++ snd teamPair ++ " " ++ tournament ++ " Series 2024";
     Schema.team1 := fst teamPair;
     Schema.team2 := snd teamPair;
     Schema.venue := nth (i mod length cricketVenues) cricketVenues "";
     Schema.date := isoDateInDays env (if Nat.ltb i 3 then 0 else i - 2);
     Schema.time := number_to_string (14 + i mod 6) ++ ":00";
     Schema.status := if Nat.eqb i 0 then "live" else "upcoming";
     Schema.tournament := tournament;
     Schema.externalId := "ext_cricket_" ++ number_to_string i;
     Schema.createdAt := now env;
     Schema.updatedAt := now env |}.

Definition generateMockCricketFixtures (env : SportsEnv) (category : string)
    : option (list Schema.Fixture) :=
  match mockCricketTeams category with
  | None => None
  | Some categoryTeams =>
      Some (map (mockCricketFixture env category categoryTeams (mockCricketTournaments category))
                (seq 0 8))
  end.

Definition tennisVenues : list string :=
  ["Centre Court"; "Arthur Ashe Stadium"; "Court Philippe-Chatrier"; "Rod Laver Arena";
   "Court Central"; "Stadium 1"; "Court 1"; "Grandstand"].

Definition atpPlayers : list (string * string) :=
  [("Novak Djokovic", "Rafael Nadal"); ("Carlos Alcaraz", "Jannik Sinner");
   ("Daniil Medvedev", "Alexander Zverev"); ("Stefanos Tsitsipas", "Taylor Fritz")].

Definition atpTournaments : list string :=
  ["ATP Masters 1000"; "ATP 500"; "ATP 250"; "Grand Slam"].

(** [players[category] || players.atp], as for the cricket teams. *)
Definition mockTennisPlayers (category : string) : option (list (string * string)) :=
  if String.eqb category "atp" then Some atpPlayers
  else if String.eqb category "wta" then
    Some [("Iga Swiatek", "Aryna Sabalenka"); ("Coco Gauff", "Jessica Pegula");
          ("Elena Rybakina", "Ons Jabeur"); ("Caroline Garcia", "Petra Kvitova")]
  else if String.eqb category "itf" then
    Some [("Alex Johnson", "Maria Rodriguez"); ("David Chen", "Sophie Williams");
          ("Luis Martinez", "Anna Kowalski"); ("Tom Anderson", "Lisa Zhang")]
  else if existsb (String.eqb category) object_prototype_keys then None
  else Some atpPlayers.

Definition mockTennisTournaments (category : string) : list string :=
  if String.eqb category "atp" then atpTournaments
  else if String.eqb category "wta" then ["WTA 1000"; "WTA 500"; "WTA 250"; "Grand Slam"]
  else if String.eqb category "itf" then
    ["ITF Men's"; "ITF Women's"; "ITF Junior"; "ITF Futures"]
  else atpTournaments.

Definition mockTennisFixture (env : SportsEnv) (category : string)
    (categoryPlayers : list (string * string)) (categoryTournaments : list string) (i : nat)
    : Schema.Fixture :=
  let playerPair := nth (i mod length categoryPlayers) categoryPlayers ("", "") in
  let tournament := nth (i mod length categoryTournaments) categoryTournaments "" in
  {| Schema.id := "tennis_" ++ category ++ "_" ++ number_to_string i;
     Schema.sport := "tennis";
     Schema.category := category;
     Schema.series := tournament ++ " 2024";
     Schema.team1 := fst playerPair;
     Schema.team2 := snd playerPair;
     Schema.venue := nth (i mod length tennisVenues) tennisVenues "";
     Schema.date := isoDateInDays env i;
     Schema.time := number_to_string (12 + i mod 8) ++ ":00";
     Schema.status := if Nat.eqb i 0 then "live" else "upcoming";
     Schema.tournament := tournament;
     Schema.externalId := "ext_tennis_" ++ number_to_string i;
     Schema.createdAt := now env;
     Schema.updatedAt := now env |}.

Definition generateMockTennisFixtures (env : SportsEnv) (category : string)
    : option (list Schema.Fixture) :=
  match mockTennisPlayers category with
  | None => None
  | Some categoryPlayers =>
      Some (map (mockTennisFixture env category categoryPlayers (mockTennisTournaments category))
                (seq 0 6))
  end.

(** [Promise.all]: rejects as soon as one promise rejects. *)
Fixpoint promise_all {A} (ps : list (option A)) : option (list A) :=
  match ps with
  | [] => Some []
  | p :: ps' =>
      match p, promise_all ps' with
      | Some a, Some l => Some (a :: l)
      | _, _ => None
      end
  end.

(** The async callback of [filteredFixtures.map]: its own [try] /
    [catch] returns the fixture itself when the enhancement rejects. *)
Definition enhanceOrKeep (env : SportsEnv) (fixture : Schema.Fixture) : option Schema.Fixture :=
  match enhanceFixtureWithPredictions env fixture with
  | Some enhanced => Some enhanced
  | None => Some fixture
  end.

Definition filterByCategory (category : string) (allFixtures : list Schema.Fixture)
    : list Schema.Fixture :=
  if String.eqb category "all" then allFixtures
  else filter (fun fixture => String.eqb (Schema.category fixture) category) allFixtures.

(** [ApiSportsService.fetchCricketFixtures]; [None] is a rejected
    promise.  The outer [catch] calls the mock generator again. *)
Definition fetchCricketFixtures `{JsRuntime} (env : SportsEnv) (category : string)
    : option (list Schema.Fixture) :=
  let tryBlock :=
    match getUpcomingMatches env with
    | None => None
    | Some entityMatches =>
        match convertEntitySportMatchesToFixtures env entityMatches with
        | None => None
        | Some allFixtures =>
            let filteredFixtures := filterByCategory category allFixtures in
            if Nat.ltb 0 (length filteredFixtures) then
              match promise_all (map (enhanceOrKeep env) filteredFixtures) with
              | Some enhancedFixtures => Some enhancedFixtures
              | None => Some filteredFixtures
              end
            else generateMockCricketFixtures env category
        end
    end in
  match tryBlock with
  | Some fixtures => Some fixtures
  | None => generateMockCricketFixtures env category
  end.

Definition fetchTennisFixtures (env : SportsEnv) (category : string)
    : option (list Schema.Fixture) :=
  generateMockTennisFixtures env category.

(** The stats object of [GET /api/dashboard/stats]. *)
Record DashboardStats := mkDashboardStats {
  totalFixtures : nat;
  liveMatches : nat;
  upcomingMatches : nat;
  completedMatches : nat;
  cricketFixtures : nat;
  tennisFixtures : nat;
  lastUpdated : string
}.

Definition dashboardStats (allFixtures : list Schema.Fixture) (lastUpdated_ : string)
    : DashboardStats :=
  {| totalFixtures := length allFixtures;
     liveMatches := length (filter (fun f => String.eqb (Schema.status f) "live") allFixtures);
     upcomingMatches := length (filter (fun f => String.eqb (Schema.status f) "upcoming") allFixtures);
     completedMatches :=
       length (filter (fun f => String.eqb (Schema.status f) "completed") allFixtures);
     cricketFixtures := length (filter (fun f => String.eqb (Schema.sport f) "cricket") allFixtures);
     tennisFixtures := length (filter (fun f => String.eqb (Schema.sport f) "tennis") allFixtures);
     lastUpdated := lastUpdated_ |}.

(** [getTodaysMatches] of the TodaysMatches page, [todayStr] being
    [new Date().toISOString().split('T')[0]]. *)
Definition getTodaysMatches (todayStr : string) (allFixtures : list Schema.Fixture)
    : list Schema.Fixture :=
  filter (fun fixture =>
            String.eqb (Schema.date fixture) todayStr &&
            (String.eqb (Schema.status fixture) "upcoming" ||
             String.eqb (Schema.status fixture) "live"))
         allFixtures.

(** The class [\s] of JS regular expressions on UTF-8 text: tab, line
    feed, vertical tab, form feed, carriage return and space (one byte),
    U+00A0 (two bytes), U+1680, U+2000 to U+200A, U+2028, U+2029, U+202F,
    U+205F, U+3000 and U+FEFF (three bytes).  [js_space_rest s] is the
    text after such a character at the head of [s]. *)
Definition js_space_rest (s : string) : option string :=
  match s with
  | String a r =>
      let n := nat_of_ascii a in
      if (Nat.leb 9 n && Nat.leb n 13) || Nat.eqb n 32 then Some r else
      match r with
      | String b r2 =>
          let m := nat_of_ascii b in
          if Nat.eqb n 194 && Nat.eqb m 160 then Some r2 else
          match r2 with
          | String c r3 =>
              let k := nat_of_ascii c in
              if (Nat.eqb n 225 && Nat.eqb m 154 && Nat.eqb k 128) ||
                 (Nat.eqb n 226 && Nat.eqb m 128 &&
                    ((Nat.leb 128 k && Nat.leb k 138) || Nat.eqb k 168 || Nat.eqb k 169 ||
                     Nat.eqb k 175)) ||
                 (Nat.eqb n 226 && Nat.eqb m 129 && Nat.eqb k 159) ||
                 (Nat.eqb n 227 && Nat.eqb m 128 && Nat.eqb k 128) ||
                 (Nat.eqb n 239 && Nat.eqb m 187 && Nat.eqb k 191)
              then Some r3 else None
          | EmptyString => None
          end
      | EmptyString => None
      end
  | EmptyString => None
  end.

(** [s.replace(/\s+/g, '_')]: each maximal run of white space becomes one
    underscore; [in_run] tells whether the previous character was white
    space.  Every step consumes at least one byte, so [length s] steps
    suffice. *)
Fixpoint replace_space_runs_fuel (fuel : nat) (in_run : bool) (s : string) : string :=
  match fuel with
  | O => s
  | S fuel' =>
      match s with
      | EmptyString => EmptyString
      | String c s' =>
          match js_space_rest s with
          | Some r =>
              if in_run then replace_space_runs_fuel fuel' true r
              else String "_" (replace_space_runs_fuel fuel' true r)
          | None => String c (replace_space_runs_fuel fuel' false s')
          end
      end
  end.

Definition replace_space_runs (in_run : bool) (s : string) : string :=
  replace_space_runs_fuel (String.length s) in_run s.

(** [`${fixture.sport}_${team.toLowerCase().replace(/\s+/g, '_')}`] *)
Definition quickTeamId `{JsRuntime} (sport team : string) : string :=
  sport ++ "_" ++ replace_space_runs false (toLowerCase team).

Definition quickPredictFormat (category : string) : Format :=
  if String.eqb category "t20" then t20
  else if String.eqb category "international" then odi
  else t20.

(** The [predictionInput] the FixtureCard's quick predict posts to
    [/api/predict/fast]; [matchDate] is the text given to [new Date]. *)
Definition quickPredictionInput `{JsRuntime} (fixture : Schema.Fixture) : PredictionInput :=
  {| team1Id := quickTeamId (Schema.sport fixture) (Schema.team1 fixture);
     team2Id := quickTeamId (Schema.sport fixture) (Schema.team2 fixture);
     team1Name := Schema.team1 fixture;
     team2Name := Schema.team2 fixture;
     venue := Schema.venue fixture;
     format := quickPredictFormat (Schema.category fixture);
     matchDate := Schema.date fixture ++ " " ++ Schema.time fixture;
     tournament := Some (Schema.tournament fixture);
     seriesContext := Some (Schema.series fixture) |}.

(** Views of fixtures used by the proofs. *)
Definition fixture_categories : list string := ["international"; "domestic"; "t20"].

Definition fixture_statuses : list string := ["upcoming"; "live"; "completed"].

(** What every converted fixture satisfies. *)
Definition converted_ok (env : SportsEnv) (m : EntitySportMatch.t) (f : Schema.Fixture) : Prop :=
  Schema.id f = "entitysport_" ++ Schema.externalId f /\
  Schema.externalId f = number_to_string (EntitySportMatch.mid m) /\
  Schema.sport f = "cricket" /\
  (exists t, parseDate env (EntitySportMatch.date_start m) = Some t /\
             Schema.date f = isoDate env t /\ Schema.time f = localTime env t).

Definition fields_ok (f : Schema.Fixture) : Prop :=
  In (Schema.category f) fixture_categories /\ In (Schema.status f) fixture_statuses /\
  Schema.series f <> "" /\ Schema.team1 f <> "" /\ Schema.team2 f <> "" /\
  Schema.venue f <> "" /\ Schema.tournament f <> "".

(** A concrete environment: EntitySport returns two matches of a T20
    league, the second with a date that does not parse. *)
Definition demo_match (mid_ : nat) (date_start_ : string) : EntitySportMatch.t :=
  {| EntitySportMatch.mid := mid_;
     EntitySportMatch.competition :=
       Some {| EntitySportCompetition.category := Some "domestic";
               EntitySportCompetition.title := Some "Big Bash T20";
               EntitySportCompetition.abbr := Some "BBL" |};
     EntitySportMatch.date_start := date_start_;
     EntitySportMatch.status := "1";
     EntitySportMatch.teama := Some {| EntitySportTeam.title := Some "";
                                       EntitySportTeam.abbr := Some "STA" |};
     EntitySportMatch.teamb := None;
     EntitySportMatch.venue := None |}.

Definition demo_env (matches : option (list EntitySportMatch.t)) : SportsEnv :=
  {| getUpcomingMatches := matches;
     enhanceFixtureWithPredictions := fun _ => None;
     parseDate := fun s => if String.eqb s "2024-12-20 08:00:00" then Some 1734681600000%Z else None;
     isoDate := fun _ => "2024-12-20";
     localTime := fun _ => "08:00";
     now := demo_clock;
     isoDateInDays := fun n => "2023-11-" ++ number_to_string (14 + n) |}.

(** The engine's [toLowerCase] on the ASCII text of the concrete runs. *)
#[global] Instance ascii_runtime : JsRuntime :=
  {| toLowerCase := ascii_toLowerCase; toLowerCase_ascii := fun _ _ => eq_refl |}.

(** ** Lemmas on the cache map *)

Lemma map_keys_set (k : string) (v : CacheEntry) (c : Cache) :
  map_keys (map_set k v c) =
  if existsb (String.eqb k) (map_keys c) then map_keys c else (map_keys c ++ [k])%list.
Proof.
  induction c as [|[k' v'] t IH]; simpl; [reflexivity|].
  destruct (String.eqb k k') eqn:E; simpl.
  - reflexivity.
  - rewrite IH. destruct (existsb (String.eqb k) (map_keys t)); reflexivity.
Qed.

Lemma map_size_keys (c : Cache) : map_size c = length (map_keys c).
Proof. unfold map_size, map_keys. now rewrite length_map. Qed.

Lemma map_size_set (k : string) (v : CacheEntry) (c : Cache) :
  (map_size (map_set k v c) <= S (map_size c))%nat.
Proof.
  rewrite !map_size_keys, map_keys_set.
  destruct (existsb _ _); [lia|]. rewrite length_app. simpl. lia.
Qed.

Lemma filter_length_le {A} (f : A -> bool) (l : list A) :
  (length (filter f l) <= length l)%nat.
Proof. induction l; simpl; [lia|]. destruct (f a); simpl; lia. Qed.

Lemma map_delete_head_length (k : string) (v : CacheEntry) (t : Cache) :
  (map_size (map_delete k ((k, v) :: t)) <= map_size t)%nat.
Proof.
  unfold map_delete, map_size. simpl. rewrite String.eqb_refl. simpl.
  apply filter_length_le.
Qed.

Lemma filter_all_true {A} (f : A -> bool) (l : list A) :
  (forall x, In x l -> f x = true) -> filter f l = l.
Proof.
  induction l as [|a l IH]; intros H; simpl; [reflexivity|].
  rewrite (H a (or_introl eq_refl)), IH; auto with datatypes.
Qed.

Lemma map_delete_head (k : string) (v : CacheEntry) (t : Cache) :
  ~ In k (map_keys t) -> map_delete k ((k, v) :: t) = t.
Proof.
  intros Hk. unfold map_delete. simpl. rewrite String.eqb_refl. simpl.
  apply filter_all_true. intros [k' v'] Hin. simpl.
  destruct (String.eqb k' k) eqn:E; [|reflexivity].
  apply String.eqb_eq in E. subst. exfalso. apply Hk.
  apply (in_map fst) in Hin. exact Hin.
Qed.

Lemma existsb_eqb_In (k : string) (l : list string) :
  existsb (String.eqb k) l = true <-> In k l.
Proof.
  rewrite existsb_exists. split.
  - intros [x [Hx E]]. apply String.eqb_eq in E. now subst.
  - intros H. exists k. split; [exact H | apply String.eqb_refl].
Qed.

Lemma map_get_In (k : string) (e : CacheEntry) (c : Cache) :
  map_get k c = Some e -> In (k, e) c.
Proof.
  induction c as [|[k' v'] t IH]; simpl; [discriminate|].
  destruct (String.eqb k k') eqn:E.
  - intros H. injection H as <-. apply String.eqb_eq in E. subst. now left.
  - intros H. right. now apply IH.
Qed.

(** [getCachedPrediction] reads the map and the clock and changes nothing. *)
Lemma getCachedPrediction_eq (key : string) (w : World) :
  getCachedPrediction key w =
  (Ok (match map_get key (predictionCache w) with
       | Some e => if (clock w - timestamp e <? CACHE_TTL)%Z
                   then Some (with_fromCache true (result e)) else None
       | None => None
       end), w).
Proof.
  unfold getCachedPrediction, bind, get_cache, date_now, ret. simpl.
  destruct (map_get key (predictionCache w)); [|reflexivity].
  destruct (_ <? _)%Z; reflexivity.
Qed.

Lemma cacheResult_eq (key : string) (r : FastPredictionResult) (w : World) :
  cacheResult key r w =
  (Ok tt, {| clock := clock w;
             predictionCache := cache_after_insert key (mkCacheEntry r (clock w))
                                  (predictionCache w) |}).
Proof.
  unfold cacheResult, cache_after_insert, bind, get_cache, date_now, put_cache. simpl.
  destruct (Nat.ltb 100 _); [|reflexivity].
  destruct (map_keys _); reflexivity.
Qed.

Lemma cache_after_insert_size (key : string) (v : CacheEntry) (c : Cache) :
  (map_size c <= CACHE_CAPACITY)%nat ->
  (map_size (cache_after_insert key v c) <= CACHE_CAPACITY)%nat.
Proof.
  unfold CACHE_CAPACITY, cache_after_insert. intros Hc.
  pose proof (map_size_set key v c) as Hs.
  destruct (Nat.ltb 100 (map_size (map_set key v c))) eqn:E.
  - destruct (map_set key v c) as [|[k0 v0] t] eqn:Ec; simpl; [simpl in *; lia|].
    pose proof (map_delete_head_length k0 v0 t) as Hd.
    unfold map_size in *; simpl in *. lia.
  - apply Nat.ltb_ge in E. exact E.
Qed.

Lemma NoDup_snoc (k : string) (q : list string) :
  NoDup q -> ~ In k q -> NoDup (q ++ [k])%list.
Proof.
  intros Hq Hk. apply NoDup_app; [exact Hq | constructor; [intros []|constructor] |].
  intros a Ha [<-|[]]. exact (Hk Ha).
Qed.

Lemma cache_after_insert_keys (key : string) (v : CacheEntry) (c : Cache) :
  NoDup (map_keys c) -> (map_size c <= CACHE_CAPACITY)%nat ->
  map_keys (cache_after_insert key v c) = fifo_admit (map_keys c) key /\
  NoDup (map_keys (cache_after_insert key v c)).
Proof.
  intros Hnd Hsz. unfold cache_after_insert, fifo_admit, CACHE_CAPACITY in *.
  pose proof (map_keys_set key v c) as Hk.
  pose proof (map_size_keys (map_set key v c)) as Hs1.
  rewrite map_size_keys in Hsz. rewrite Hk in Hs1.
  destruct (existsb (String.eqb key) (map_keys c)) eqn:Ein.
  - assert (E : Nat.ltb 100 (map_size (map_set key v c)) = false)
      by (apply Nat.ltb_ge; lia).
    rewrite E, Hk. split; [reflexivity | exact Hnd].
  - assert (Hnin : ~ In key (map_keys c)).
    { intros H. apply existsb_eqb_In in H. congruence. }
    rewrite length_app in Hs1. simpl in Hs1.
    destruct (Nat.ltb (length (map_keys c)) 100) eqn:Elt.
    + apply Nat.ltb_lt in Elt.
      assert (E : Nat.ltb 100 (map_size (map_set key v c)) = false)
        by (apply Nat.ltb_ge; lia).
      rewrite E, Hk. split; [reflexivity | now apply NoDup_snoc].
    + apply Nat.ltb_ge in Elt.
      assert (E : Nat.ltb 100 (map_size (map_set key v c)) = true)
        by (apply Nat.ltb_lt; lia).
      rewrite E.
      assert (Hnd1 : NoDup (map_keys (map_set key v c)))
        by (rewrite Hk; now apply NoDup_snoc).
      destruct (map_keys c) as [|k0 q] eqn:Eq; [simpl in Elt; lia|].
      destruct (map_set key v c) as [|[k1 v1] t] eqn:Ec; [discriminate|].
      simpl in Hk. injection Hk as Hk0 Hkt. subst k1.
      cbn [map_keys map fst tl]. rewrite ?Ec in Hnd1. simpl in Hnd1.
      inversion Hnd1 as [|? ? Hn0 Hndt]; subst.
      rewrite map_delete_head by exact Hn0.
      split; [exact Hkt | exact Hndt].
Qed.

Lemma run_cache_ops_put (t : Z) (k : string) (r : FastPredictionResult)
    (ops : list CacheOp) (w : World) :
  run_cache_ops (op_put t k r :: ops) w =
  run_cache_ops ops {| clock := t;
                       predictionCache := cache_after_insert k (mkCacheEntry r t)
                                            (predictionCache w) |}.
Proof.
  simpl. unfold bind at 1. simpl. unfold bind at 1. rewrite cacheResult_eq. reflexivity.
Qed.

Lemma run_cache_ops_get (t : Z) (k : string) (ops : list CacheOp) (w : World) :
  run_cache_ops (op_get t k :: ops) w =
  run_cache_ops ops {| clock := t; predictionCache := predictionCache w |}.
Proof.
  simpl. unfold bind at 1. simpl. unfold bind at 1. rewrite getCachedPrediction_eq.
  reflexivity.
Qed.

Lemma run_cache_ops_queue (ops : list CacheOp) (w : World) :
  NoDup (map_keys (predictionCache w)) ->
  (map_size (predictionCache w) <= CACHE_CAPACITY)%nat ->
  fst (run_cache_ops ops w) = Ok tt /\
  map_keys (predictionCache (snd (run_cache_ops ops w)))
    = fifo_queue ops (map_keys (predictionCache w)) /\
  NoDup (map_keys (predictionCache (snd (run_cache_ops ops w)))) /\
  (map_size (predictionCache (snd (run_cache_ops ops w))) <= CACHE_CAPACITY)%nat.
Proof.
  revert w. induction ops as [|op ops IH]; intros w Hnd Hsz.
  - simpl. auto.
  - destruct op as [t k r | t k].
    + rewrite run_cache_ops_put.
      destruct (cache_after_insert_keys k (mkCacheEntry r t) _ Hnd Hsz) as [Hq Hnd'].
      pose proof (cache_after_insert_size k (mkCacheEntry r t) _ Hsz) as Hsz'.
      destruct (IH {| clock := t; predictionCache := cache_after_insert k (mkCacheEntry r t)
                                                   (predictionCache w) |} Hnd' Hsz')
        as (H1 & H2 & H3 & H4).
      simpl in *.
      split; [exact H1|]. split; [rewrite H2, Hq; reflexivity|]. split; assumption.
    + rewrite run_cache_ops_get.
      exact (IH {| clock := t; predictionCache := predictionCache w |} Hnd Hsz).
Qed.

(** ** Equations of the tiers *)

Lemma getCachedPrediction_live (key : string) (w : World) :
  getCachedPrediction key w = (Ok (lookup_live key w), w).
Proof. rewrite getCachedPrediction_eq. reflexivity. Qed.

Lemma generateFastPrediction_eq (svc : Services) (input : PredictionInput) (w : World) :
  generateFastPrediction svc input w =
  match lookup_live (fastCacheKey input) w with
  | Some r => (Ok r, w)
  | None => computeFastPrediction svc input (fastCacheKey input) w
  end.
Proof.
  unfold generateFastPrediction, bind at 1. rewrite getCachedPrediction_live.
  destruct (lookup_live _ _); reflexivity.
Qed.

Lemma generateBalancedPrediction_eq (svc : Services) (input : PredictionInput) (w : World) :
  generateBalancedPrediction svc input w =
  match lookup_live (balancedCacheKey input) w with
  | Some r => (Ok r, w)
  | None => computeBalancedPrediction svc input (balancedCacheKey input) w
  end.
Proof.
  unfold generateBalancedPrediction, bind at 1. rewrite getCachedPrediction_live.
  destruct (lookup_live _ _); reflexivity.
Qed.

Lemma computeFastPrediction_eq (svc : Services) (input : PredictionInput)
    (key : string) (w : World) :
  computeFastPrediction svc input key w =
  let w1 := advance (elo_latency svc) w in
  match calculateWinProbability svc (clock w) (team1Id input) (team2Id input) (format input) with
  | Some p =>
      let r := fastResult input p (clock w1 - clock w) in
      (Ok r, {| clock := clock w1;
                predictionCache := cache_after_insert key (mkCacheEntry r (clock w1))
                                     (predictionCache w) |})
  | None => (Ok (generateBasicFallback input (clock w1 - clock w)), w1)
  end.
Proof.
  unfold computeFastPrediction, bind, try_catch, date_now, ret,
    awaitWinProbability, await_option. simpl.
  destruct (calculateWinProbability svc _ _ _ _); [|reflexivity].
  rewrite cacheResult_eq. reflexivity.
Qed.

Lemma computeBalancedPrediction_eq (svc : Services) (input : PredictionInput)
    (key : string) (w : World) :
  computeBalancedPrediction svc input key w =
  let w1 := advance (elo_latency svc) w in
  match calculateWinProbability svc (clock w) (team1Id input) (team2Id input) (format input) with
  | Some p =>
      let w2 := advance (ml_latency svc) w1 in
      match generateEnhancedPrediction svc (clock w1) input
              (mkBaseProbs (wp_team1WinProb p) (wp_team2WinProb p) (wp_drawProb p)) with
      | Some e =>
          let r := balancedResult input e (clock w2 - clock w) in
          (Ok r, {| clock := clock w2;
                    predictionCache := cache_after_insert key (mkCacheEntry r (clock w2))
                                         (predictionCache w) |})
      | None => generateFastPrediction svc input w2
      end
  | None => generateFastPrediction svc input w1
  end.
Proof.
  unfold computeBalancedPrediction, bind, try_catch, date_now, ret,
    awaitWinProbability, awaitEnhancedPrediction, await_option. simpl.
  destruct (calculateWinProbability svc _ _ _ _); [|reflexivity].
  destruct (generateEnhancedPrediction svc _ _ _); [|reflexivity].
  rewrite cacheResult_eq. reflexivity.
Qed.

Lemma lookup_live_some (key : string) (w : World) (r : FastPredictionResult) :
  lookup_live key w = Some r ->
  exists e, map_get key (predictionCache w) = Some e /\ r = with_fromCache true (result e).
Proof.
  unfold lookup_live. destruct (map_get key (predictionCache w)) as [e|]; [|discriminate].
  destruct (_ <? _)%Z; [|discriminate]. intros H. injection H as <-. eauto.
Qed.

(** ** Preservation of the probability invariant *)

Lemma js_or_nonzero (x d : Q) : ~ (x == 0)%Q -> js_or x d = x.
Proof.
  intros H. unfold js_or. destruct (Qeq_bool x 0) eqn:E; [|reflexivity].
  apply Qeq_bool_iff in E. contradiction.
Qed.

Lemma fallback_ok (input : PredictionInput) (t : Z) :
  result_ok (generateBasicFallback input t).
Proof. unfold result_ok, prob_ok. simpl. repeat split; lra. Qed.

Lemma with_fromCache_ok (b : bool) (r : FastPredictionResult) :
  result_ok r -> result_ok (with_fromCache b r).
Proof. exact (fun H => H). Qed.

Lemma In_map_set (x : string * CacheEntry) (k : string) (v : CacheEntry) (c : Cache) :
  In x (map_set k v c) -> In x c \/ snd x = v.
Proof.
  induction c as [|[k' v'] t IH]; simpl.
  - intros [<-|[]]. now right.
  - destruct (String.eqb k k').
    + intros [<-|H]; [now right | now left; right].
    + intros [<-|H]; [now left; left|]. destruct (IH H); auto.
Qed.

Lemma cache_after_insert_ok (k : string) (v : CacheEntry) (c : Cache) :
  cache_ok c -> result_ok (result v) -> cache_ok (cache_after_insert k v c).
Proof.
  intros Hc Hv.
  assert (Hs : cache_ok (map_set k v c)).
  { intros x Hx. destruct (In_map_set x k v c Hx) as [H|H]; [exact (Hc x H)|].
    rewrite H. exact Hv. }
  unfold cache_after_insert.
  destruct (Nat.ltb _ _); [|exact Hs].
  destruct (map_keys _) as [|k0 _]; [exact Hs|].
  intros x Hx. unfold map_delete in Hx. apply filter_In in Hx. exact (Hs x (proj1 Hx)).
Qed.

Lemma lookup_live_ok (key : string) (w : World) (r : FastPredictionResult) :
  cache_ok (predictionCache w) -> lookup_live key w = Some r -> result_ok r.
Proof.
  intros Hc Hl. destruct (lookup_live_some key w r Hl) as (e & He & ->).
  apply with_fromCache_ok. exact (Hc (key, e) (map_get_In _ _ _ He)).
Qed.

Section Invariant.
Variable svc : Services.
Hypothesis Hsvc : providers_nonzero_draw svc.

Lemma fastResult_ok (input : PredictionInput) (t : Z) (p : WinProbability) (a b : Z) :
  calculateWinProbability svc t (team1Id input) (team2Id input) (format input) = Some p ->
  result_ok (fastResult input p (a - b)).
Proof.
  intros Hp. destruct (proj1 Hsvc _ _ _ _ _ Hp) as [Hok Hnz].
  unfold result_ok, fastResult. simpl. rewrite js_or_nonzero by exact Hnz. exact Hok.
Qed.

Lemma generateFastPrediction_ok (input : PredictionInput) (w : World) :
  cache_ok (predictionCache w) ->
  exists r w', generateFastPrediction svc input w = (Ok r, w') /\
               result_ok r /\ cache_ok (predictionCache w').
Proof.
  intros Hc. rewrite generateFastPrediction_eq.
  destruct (lookup_live _ w) as [r|] eqn:El.
  - exists r, w. split; [reflexivity|]. split; [exact (lookup_live_ok _ _ _ Hc El) | exact Hc].
  - rewrite computeFastPrediction_eq. cbv zeta.
    destruct (calculateWinProbability svc _ _ _ _) as [p|] eqn:Ep.
    + pose proof (fastResult_ok input _ p (clock (advance (elo_latency svc) w)) (clock w) Ep) as Hr.
      eexists _, _. split; [reflexivity|]. split; [exact Hr|].
      simpl. apply cache_after_insert_ok; [exact Hc | exact Hr].
    + eexists _, _. split; [reflexivity|]. split; [apply fallback_ok | exact Hc].
Qed.

Lemma generateBalancedPrediction_ok (input : PredictionInput) (w : World) :
  cache_ok (predictionCache w) ->
  exists r w', generateBalancedPrediction svc input w = (Ok r, w') /\
               result_ok r /\ cache_ok (predictionCache w').
Proof.
  intros Hc. rewrite generateBalancedPrediction_eq.
  destruct (lookup_live _ w) as [r|] eqn:El.
  - exists r, w. split; [reflexivity|]. split; [exact (lookup_live_ok _ _ _ Hc El) | exact Hc].
  - rewrite computeBalancedPrediction_eq. cbv zeta.
    destruct (calculateWinProbability svc _ _ _ _) as [p|] eqn:Ep;
      [|apply generateFastPrediction_ok; exact Hc].
    destruct (generateEnhancedPrediction svc _ _ _) as [e|] eqn:Ee;
      [|apply generateFastPrediction_ok; exact Hc].
    destruct (proj2 Hsvc _ _ _ _ Ee) as [Hok Hnz].
    assert (Hr : forall t, result_ok (balancedResult input e t)).
    { intros t. unfold result_ok, balancedResult. simpl.
      rewrite js_or_nonzero by exact Hnz. exact Hok. }
    eexists _, _. split; [reflexivity|]. split; [apply Hr|].
    simpl. apply cache_after_insert_ok; [exact Hc | apply Hr].
Qed.
End Invariant.

(** ** Totality and the fallback path *)



Lemma lookup_live_absent (key : string) (w : World) :
  map_get key (predictionCache w) = None -> lookup_live key w = None.
Proof. unfold lookup_live. intros ->. reflexivity. Qed.


Section Outage.
Variable svc : Services.
Hypothesis Helo : forall t a b f, calculateWinProbability svc t a b f = None.


End Outage.

Lemma draw_services_ok : providers_nonzero_draw draw_services.
Proof.
  split.
  - intros t a b f p H. simpl in H. injection H as <-. unfold prob_ok. simpl.
    split; [repeat split; lra | unfold Qeq; simpl; lia].
  - intros t input b e H. simpl in H. injection H as <-. unfold prob_ok. simpl.
    split; [repeat split; lra | unfold Qeq; simpl; lia].
Qed.

(** ** Claims *)

(** C1 (as amended).  Whenever the rating and feature providers return
    distributions that satisfy the invariant with a non-zero draw
    probability, and every cached result satisfies it, [predict] in every
    mode returns a result whose three probabilities lie in [[0,1]] and sum
    to a value in [[0.99, 1.01]], and the cache it leaves behind still
    satisfies the invariant. *)
Theorem predict_probabilities_ok {rt : JsRuntime} (svc : Services) (input : PredictionInput)
    (mode : Mode) (w : World) :
  providers_nonzero_draw svc -> cache_ok (predictionCache w) ->
  exists r w', predict svc input mode w = (Ok r, w') /\
               result_ok r /\ cache_ok (predictionCache w').
Proof.
  intros Hsvc Hc. destruct mode; simpl.
  - now apply generateFastPrediction_ok.
  - now apply generateBalancedPrediction_ok.
  - destruct (isImportantMatch input).
    + now apply generateBalancedPrediction_ok.
    + now apply generateFastPrediction_ok.
Qed.

Lemma predict_probabilities_ok_witness :
  providers_nonzero_draw draw_services /\ cache_ok (predictionCache world0) /\
  exists r w', predict draw_services (demo_input None None) mode_smart world0 = (Ok r, w') /\
               result_ok r /\ cache_ok (predictionCache w').
Proof.
  assert (H0 : cache_ok (predictionCache world0)) by (intros x []).
  split; [exact draw_services_ok|]. split; [exact H0|].
  exact (predict_probabilities_ok draw_services (demo_input None None) mode_smart world0
           draw_services_ok H0).
Defined.

(** C1 refuted.  The rating provider returns 0.6 / 0.4 / 0, which
    satisfies the invariant; the fast tier turns the falsy draw
    probability 0 into 0.02 ([drawProb || 0.02]) and returns
    0.6 / 0.4 / 0.02, whose sum 1.02 lies outside [[0.99, 1.01]]. *)
Lemma predict_zero_draw_counterexample :
  (forall t a b f p, calculateWinProbability demo_services t a b f = Some p ->
     prob_ok (wp_team1WinProb p) (wp_team2WinProb p) (wp_drawProb p)) /\
  exists r w', predict demo_services (demo_input None None) mode_fast world0 = (Ok r, w') /\
               drawProb r = 2 # 100 /\ ~ result_ok r.
Proof.
  split.
  - intros t a b f p H. simpl in H. injection H as <-. unfold prob_ok. simpl.
    repeat split; lra.
  - eexists _, _. split; [vm_compute; reflexivity|]. split; [reflexivity|].
    unfold result_ok, prob_ok. simpl. intros (_ & _ & _ & _ & H). lra.
Qed.

(** C2 (as amended).  Smart mode with the default time constraint routes
    to the balanced tier exactly when the lower-cased [tournament] contains
    "world" or "final" or the lower-cased [seriesContext] contains "final"
    or "semi", and to the fast tier otherwise; "ICC World Cup Final" goes
    to the balanced tier, "Friendly T20" without markers in the series
    context to the fast tier. *)
Theorem smart_routing {rt : JsRuntime} (svc : Services) (input : PredictionInput) (w : World) :
  predict svc input mode_smart w =
    (if opt_includes (tournament input) "world" || opt_includes (tournament input) "final" ||
        opt_includes (seriesContext input) "final" || opt_includes (seriesContext input) "semi"
     then generateBalancedPrediction svc input w
     else generateFastPrediction svc input w) /\
  (tournament input = Some "ICC World Cup Final" ->
   predict svc input mode_smart w = generateBalancedPrediction svc input w) /\
  (tournament input = Some "Friendly T20" ->
   (forall word, In word spec_importance_markers ->
      opt_includes (seriesContext input) word = false) ->
   predict svc input mode_smart w = generateFastPrediction svc input w).
Proof.
  split; [simpl; unfold isImportantMatch; destruct (_ || _); reflexivity|]. split.
  - intros Ht. simpl. unfold isImportantMatch. rewrite Ht. unfold opt_includes at 1.
    rewrite (toLowerCase_ascii "ICC World Cup Final") by reflexivity. reflexivity.
  - intros Ht Hs. simpl. unfold isImportantMatch. rewrite Ht. unfold opt_includes at 1 2.
    rewrite (toLowerCase_ascii "Friendly T20") by reflexivity.
    rewrite (Hs "final"), (Hs "semi") by (simpl; tauto). reflexivity.
Qed.

Lemma smart_routing_witness :
  predict demo_services (demo_input (Some "ICC World Cup Final") None) mode_smart world0 =
    generateBalancedPrediction demo_services (demo_input (Some "ICC World Cup Final") None) world0 /\
  predict demo_services (demo_input (Some "Friendly T20") None) mode_smart world0 =
    generateFastPrediction demo_services (demo_input (Some "Friendly T20") None) world0.
Proof.
  split.
  - exact (proj1 (proj2 (smart_routing demo_services
             (demo_input (Some "ICC World Cup Final") None) world0)) eq_refl).
  - apply (proj2 (proj2 (smart_routing demo_services
             (demo_input (Some "Friendly T20") None) world0)) eq_refl).
    intros word _. reflexivity.
Defined.

(** C2 refuted.  "semi" is searched for in the series context only: a
    tournament named "Semis" carries a marker of the vocabulary, yet smart
    mode routes it to the fast tier, whose result differs from the
    balanced tier's. *)
Lemma smart_semis_tournament_counterexample :
  spec_isImportant (demo_input (Some "Semis") None) = true /\
  predict demo_services (demo_input (Some "Semis") None) mode_smart world0 =
    generateFastPrediction demo_services (demo_input (Some "Semis") None) world0 /\
  fst (predict demo_services (demo_input (Some "Semis") None) mode_smart world0) <>
    fst (generateBalancedPrediction demo_services (demo_input (Some "Semis") None) world0).
Proof.
  split; [reflexivity|]. split; [reflexivity|].
  vm_compute. discriminate.
Qed.




(** C4 (as amended).  The time constraint ['fast'] forces the fast tier
    and ['accurate'] the balanced tier, bypassing the importance test;
    ['balanced'], the default used by [predict], does not force a tier: it
    applies the importance test. *)
Theorem smart_time_constraint {rt : JsRuntime} (svc : Services) (input : PredictionInput) :
  generateSmartPrediction svc input tc_fast = generateFastPrediction svc input /\
  generateSmartPrediction svc input tc_accurate = generateBalancedPrediction svc input /\
  generateSmartPrediction svc input tc_balanced =
    (if isImportantMatch input then generateBalancedPrediction svc input
     else generateFastPrediction svc input) /\
  predict svc input mode_smart = generateSmartPrediction svc input tc_balanced.
Proof. repeat split. Qed.

(** C4 refuted.  With the time constraint ['balanced'] a request without
    importance markers ("Friendly T20") is not sent to the balanced tier:
    the importance test routes it to the fast tier. *)
Lemma smart_balanced_constraint_counterexample :
  generateSmartPrediction demo_services (demo_input (Some "Friendly T20") None) tc_balanced =
    generateFastPrediction demo_services (demo_input (Some "Friendly T20") None) /\
  fst (generateSmartPrediction demo_services (demo_input (Some "Friendly T20") None)
         tc_balanced world0) <>
    fst (generateBalancedPrediction demo_services (demo_input (Some "Friendly T20") None) world0).
Proof.
  split; [reflexivity|]. vm_compute. discriminate.
Qed.

(** C6.  When the feature ensemble throws on every call and the balanced
    key has no live cache entry, the balanced tier returns exactly what
    the fast tier returns for the same input on the same cache, called at
    the moment the failure is caught (after the awaited latencies). *)
Theorem balanced_ml_failure_is_fast (svc : Services) (input : PredictionInput) (w : World) :
  (forall t i b, generateEnhancedPrediction svc t i b = None) ->
  getCachedPrediction (balancedCacheKey input) w = (Ok None, w) ->
  exists w', predictionCache w' = predictionCache w /\
    (clock w' = clock w + elo_latency svc \/
     clock w' = clock w + elo_latency svc + ml_latency svc)%Z /\
    generateBalancedPrediction svc input w = generateFastPrediction svc input w'.
Proof.
  intros Hml Hmiss. rewrite getCachedPrediction_live in Hmiss.
  injection Hmiss as Hl.
  rewrite generateBalancedPrediction_eq, Hl, computeBalancedPrediction_eq. cbv zeta.
  destruct (calculateWinProbability svc _ _ _ _).
  - rewrite Hml. exists (advance (ml_latency svc) (advance (elo_latency svc) w)).
    split; [reflexivity|]. split; [right; reflexivity | reflexivity].
  - exists (advance (elo_latency svc) w).
    split; [reflexivity|]. split; [left; reflexivity | reflexivity].
Qed.

Lemma balanced_ml_failure_is_fast_witness :
  exists w', predictionCache w' = predictionCache world0 /\
    (clock w' = clock world0 + 40 \/ clock w' = clock world0 + 40 + 150)%Z /\
    generateBalancedPrediction ml_down_services (demo_input None None) world0 =
      generateFastPrediction ml_down_services (demo_input None None) w'.
Proof.
  exact (balanced_ml_failure_is_fast ml_down_services (demo_input None None) world0
           (fun _ _ _ => eq_refl) eq_refl).
Defined.

Lemma runTier_eq (svc : Services) (tier : Tier) (input : PredictionInput) (w : World) :
  runTier svc tier input w =
  match lookup_live (tierCacheKey tier input) w with
  | Some r => (Ok r, w)
  | None => computeTier svc tier input w
  end.
Proof.
  destruct tier; simpl;
    [apply generateFastPrediction_eq | apply generateBalancedPrediction_eq].
Qed.

(** C5.  If a call of a tier returned [r] and left [r] cached under the
    tier's key at time [t], a second call with the same input on that cache
    less than [CACHE_TTL] (5 minutes) after [t] returns [r] with
    [fromCache = true] and every other field unchanged, and touches
    nothing; at or after [t + CACHE_TTL] the cache read is a miss and the
    tier recomputes. *)
Theorem cache_hit_within_ttl (svc : Services) (tier : Tier) (input : PredictionInput)
    (w w1 w2 : World) (r : FastPredictionResult) (t : Z) :
  runTier svc tier input w = (Ok r, w1) ->
  map_get (tierCacheKey tier input) (predictionCache w1) = Some (mkCacheEntry r t) ->
  predictionCache w2 = predictionCache w1 ->
  ((clock w2 - t < CACHE_TTL)%Z ->
   runTier svc tier input w2 = (Ok (with_fromCache true r), w2)) /\
  ((CACHE_TTL <= clock w2 - t)%Z ->
   getCachedPrediction (tierCacheKey tier input) w2 = (Ok None, w2) /\
   runTier svc tier input w2 = computeTier svc tier input w2).
Proof.
  intros _ Hget Hc2.
  assert (Hl : lookup_live (tierCacheKey tier input) w2 =
               if (clock w2 - t <? CACHE_TTL)%Z then Some (with_fromCache true r) else None)
    by (unfold lookup_live; rewrite Hc2, Hget; reflexivity).
  split.
  - intros Hlt. rewrite runTier_eq, Hl. apply Z.ltb_lt in Hlt. rewrite Hlt. reflexivity.
  - intros Hge. apply Z.ltb_ge in Hge. rewrite Hge in Hl.
    rewrite getCachedPrediction_live, runTier_eq, Hl. split; reflexivity.
Qed.

Lemma cache_hit_within_ttl_witness :
  runTier draw_services tier_fast (demo_input None None)
    {| clock := demo_clock + 60000; predictionCache := predictionCache demo_world1 |} =
  (Ok (with_fromCache true demo_fast_result),
   {| clock := demo_clock + 60000; predictionCache := predictionCache demo_world1 |}).
Proof.
  apply (proj1 (cache_hit_within_ttl draw_services tier_fast (demo_input None None)
                  world0 demo_world1
                  {| clock := demo_clock + 60000; predictionCache := predictionCache demo_world1 |}
                  demo_fast_result (demo_clock + 40) eq_refl eq_refl eq_refl)).
  reflexivity.
Defined.

(** C7.  Starting from the empty cache, after any sequence of insertions
    (interleaved with reads, at any clock values) the cache holds at most
    [CACHE_CAPACITY] = 100 entries; every prefix of a sequence is itself
    a sequence, so this holds after each insertion. *)
Theorem cache_size_bounded (ops : list CacheOp) (t : Z) :
  (map_size (predictionCache (snd (run_cache_ops ops {| clock := t; predictionCache := [] |})))
     <= CACHE_CAPACITY)%nat.
Proof.
  apply (run_cache_ops_queue ops {| clock := t; predictionCache := [] |});
    [constructor | unfold CACHE_CAPACITY; simpl; lia].
Qed.

(** C8.  The basic fallback depends on its elapsed-time argument only and
    always returns 0.52 / 0.46 / 0.02 with confidence 0.60 and accuracy 65,
    strictly below the accuracy of every result of the fast and balanced
    engines, with risk factors naming the limited data. *)
Theorem generateBasicFallback_spec (input : PredictionInput) (processingTime : Z) :
  let r := generateBasicFallback input processingTime in
  team1WinProb r = 52 # 100 /\ team2WinProb r = 46 # 100 /\ drawProb r = 2 # 100 /\
  confidence r = 60 # 100 /\ accuracy r = 65%Z /\ processingTimeMs r = processingTime /\
  (forall input' p e t,
     accuracy r < accuracy (fastResult input' p t) /\
     accuracy r < accuracy (balancedResult input' e t))%Z /\
  riskFactors r = ["Limited data available"; "Fallback prediction"] /\
  (forall input', generateBasicFallback input' processingTime = r).
Proof.
  cbv zeta. repeat split; try reflexivity.
  - simpl. destruct (format input'); reflexivity.
  - simpl. destruct (format input'); reflexivity.
Qed.

(** C9.  From the empty cache, after any sequence of insertions and reads
    the keys of the cache, in iteration order, are exactly the FIFO queue
    of first insertions: re-inserting a present key keeps its place, a new
    key joins at the back and, past capacity, the front key (the earliest
    admitted still present) is evicted; a read never changes the cache. *)
Theorem cache_eviction_fifo (ops : list CacheOp) (t : Z) :
  map_keys (predictionCache (snd (run_cache_ops ops {| clock := t; predictionCache := [] |})))
    = fifo_queue ops [] /\
  (forall key w, snd (getCachedPrediction key w) = w).
Proof.
  split.
  - apply (run_cache_ops_queue ops {| clock := t; predictionCache := [] |});
      [constructor | unfold CACHE_CAPACITY; simpl; lia].
  - intros key w. rewrite getCachedPrediction_live. reflexivity.
Qed.

(** C10.  [getCacheStats] reports the constant hit rate 0.85 whatever the
    state, and a size counting every stored entry: an entry a read treats
    as absent because its TTL has passed is still stored, hence counted. *)
Theorem getCacheStats_spec (w : World) :
  getCacheStats w = (Ok {| size := map_size (predictionCache w); hitRate := 85 # 100 |}, w) /\
  (forall key e, map_get key (predictionCache w) = Some e ->
     (CACHE_TTL <= clock w - timestamp e)%Z ->
     getCachedPrediction key w = (Ok None, w) /\ In (key, e) (predictionCache w)).
Proof.
  split; [reflexivity|].
  intros key e He Hexp. split.
  - rewrite getCachedPrediction_live. unfold lookup_live. rewrite He.
    apply Z.ltb_ge in Hexp. rewrite Hexp. reflexivity.
  - exact (map_get_In _ _ _ He).
Qed.

Lemma getCacheStats_spec_witness :
  getCachedPrediction (fastCacheKey (demo_input None None))
    {| clock := demo_clock + 400000; predictionCache := predictionCache demo_world1 |} =
    (Ok None, {| clock := demo_clock + 400000; predictionCache := predictionCache demo_world1 |}) /\
  In (fastCacheKey (demo_input None None), mkCacheEntry demo_fast_result (demo_clock + 40))
    (predictionCache demo_world1).
Proof.
  apply (proj2 (getCacheStats_spec
                  {| clock := demo_clock + 400000; predictionCache := predictionCache demo_world1 |})).
  - reflexivity.
  - vm_compute. discriminate.
Defined.

(** A concrete run of the eviction: 100 keys are inserted, the first one is
    read (a hit), and a new key is inserted; the key just read is the one
    evicted, so reads do not protect an entry (the policy is not LRU). *)
Example demo_ops_read_then_evicted :
  fst (getCachedPrediction (demo_key 0)
         (snd (run_cache_ops (firstn 100 demo_ops) world0))) =
    Ok (Some (with_fromCache true demo_fast_result)) /\
  ~ In (demo_key 0) (map_keys (predictionCache (snd (run_cache_ops demo_ops world0)))) /\
  In (demo_key 1) (map_keys (predictionCache (snd (run_cache_ops demo_ops world0)))) /\
  In "new" (map_keys (predictionCache (snd (run_cache_ops demo_ops world0)))).
Proof.
  split; [vm_compute; reflexivity|].
  split; [|split; vm_compute; tauto].
  vm_compute. intros H. repeat (destruct H as [H|H]; [discriminate|]). exact H.
Qed.

(** ** Further properties of the predictor and its routes *)

Lemma map_get_set_same (k : string) (v : CacheEntry) (c : Cache) :
  map_get k (map_set k v c) = Some v.
Proof.
  induction c as [|[k' v'] t IH]; simpl.
  - rewrite String.eqb_refl. reflexivity.
  - destruct (String.eqb k k') eqn:E; simpl; rewrite E; [reflexivity | exact IH].
Qed.

Lemma map_get_set_other (k k' : string) (v : CacheEntry) (c : Cache) :
  k <> k' -> map_get k (map_set k' v c) = map_get k c.
Proof.
  intros Hne. induction c as [|[k0 v0] t IH]; simpl.
  - destruct (String.eqb k k') eqn:E; [apply String.eqb_eq in E; contradiction | reflexivity].
  - destruct (String.eqb k' k0) eqn:E'; simpl.
    + apply String.eqb_eq in E'. subst k0.
      destruct (String.eqb k k') eqn:E; [apply String.eqb_eq in E; contradiction | reflexivity].
    + destruct (String.eqb k k0); [reflexivity | exact IH].
Qed.

Lemma map_get_delete_other (k k0 : string) (c : Cache) :
  k <> k0 -> map_get k (map_delete k0 c) = map_get k c.
Proof.
  intros Hne. unfold map_delete. induction c as [|[k1 v1] t IH]; simpl; [reflexivity|].
  destruct (String.eqb k1 k0) eqn:E; simpl.
  - apply String.eqb_eq in E. subst k1.
    destruct (String.eqb k k0) eqn:E2; [apply String.eqb_eq in E2; contradiction | exact IH].
  - destruct (String.eqb k k1); [reflexivity | exact IH].
Qed.

Lemma map_get_delete_none (k k0 : string) (c : Cache) :
  map_get k c = None -> map_get k (map_delete k0 c) = None.
Proof.
  unfold map_delete. induction c as [|[k1 v1] t IH]; simpl; [reflexivity|].
  destruct (String.eqb k k1) eqn:E; [discriminate|]. intros H.
  destruct (String.eqb k1 k0); simpl; [exact (IH H)|]. rewrite E. exact (IH H).
Qed.

Lemma cache_after_insert_other_none (k key : string) (v : CacheEntry) (c : Cache) :
  k <> key -> map_get k c = None -> map_get k (cache_after_insert key v c) = None.
Proof.
  intros Hne Hk.
  assert (H1 : map_get k (map_set key v c) = None) by (rewrite map_get_set_other; assumption).
  unfold cache_after_insert.
  destruct (Nat.ltb 100 _); [|exact H1].
  destruct (map_keys _); [exact H1 | apply map_get_delete_none; exact H1].
Qed.

Lemma cache_after_insert_get_same (key : string) (v : CacheEntry) (c : Cache) :
  (map_size c <= CACHE_CAPACITY)%nat -> map_get key (cache_after_insert key v c) = Some v.
Proof.
  unfold CACHE_CAPACITY. intros Hc. unfold cache_after_insert.
  destruct (Nat.ltb 100 (map_size (map_set key v c))) eqn:Hlt; [|apply map_get_set_same].
  apply Nat.ltb_lt in Hlt. rewrite map_size_keys, map_keys_set in Hlt.
  pose proof (map_keys_set key v c) as Hk.
  destruct (existsb (String.eqb key) (map_keys c)) eqn:Ex.
  - rewrite <- map_size_keys in Hlt. lia.
  - rewrite Hk. destruct (map_keys c) as [|k0 ks] eqn:Ekc; [simpl in Hlt; lia|].
    simpl. rewrite map_get_delete_other; [apply map_get_set_same|].
    intros ->. simpl in Ex. rewrite String.eqb_refl in Ex. discriminate.
Qed.

Lemma balanced_fast_keys_differ (input input' : PredictionInput) :
  balancedCacheKey input <> fastCacheKey input'.
Proof. unfold balancedCacheKey, fastCacheKey. simpl. discriminate. Qed.

Section CacheInvariant.
Variable P : Cache -> Prop.
Hypothesis HP : forall key v c, P c -> P (cache_after_insert key v c).

Lemma generateFastPrediction_preserves (svc : Services) (input : PredictionInput) (w : World) :
  P (predictionCache w) -> P (predictionCache (snd (generateFastPrediction svc input w))).
Proof.
  intros Hw. rewrite generateFastPrediction_eq. destruct (lookup_live _ w); [exact Hw|].
  rewrite computeFastPrediction_eq. cbv zeta.
  destruct (calculateWinProbability _ _ _ _ _); simpl; [apply HP|]; exact Hw.
Qed.

Lemma generateBalancedPrediction_preserves (svc : Services) (input : PredictionInput) (w : World) :
  P (predictionCache w) -> P (predictionCache (snd (generateBalancedPrediction svc input w))).
Proof.
  intros Hw. rewrite generateBalancedPrediction_eq. destruct (lookup_live _ w); [exact Hw|].
  rewrite computeBalancedPrediction_eq. cbv zeta.
  destruct (calculateWinProbability _ _ _ _ _);
    [destruct (generateEnhancedPrediction _ _ _ _); [simpl; apply HP; exact Hw|]|];
    apply generateFastPrediction_preserves; exact Hw.
Qed.

Lemma predict_preserves {rt : JsRuntime} (svc : Services) (input : PredictionInput) (mode : Mode) (w : World) :
  P (predictionCache w) -> P (predictionCache (snd (predict svc input mode w))).
Proof.
  intros Hw. destruct mode; simpl;
    [apply generateFastPrediction_preserves | apply generateBalancedPrediction_preserves |];
    try exact Hw.
  unfold generateSmartPrediction. destruct (isImportantMatch input);
    [apply generateBalancedPrediction_preserves | apply generateFastPrediction_preserves]; exact Hw.
Qed.

End CacheInvariant.

Lemma generateFastPrediction_absent (svc : Services) (input : PredictionInput) (k : string) (w : World) :
  k <> fastCacheKey input -> map_get k (predictionCache w) = None ->
  map_get k (predictionCache (snd (generateFastPrediction svc input w))) = None.
Proof.
  intros Hne Hk. rewrite generateFastPrediction_eq. destruct (lookup_live _ w); [exact Hk|].
  rewrite computeFastPrediction_eq. cbv zeta.
  destruct (calculateWinProbability _ _ _ _ _); simpl;
    [apply cache_after_insert_other_none|]; assumption.
Qed.

Lemma mode_of_query_smart (q : option string) :
  q <> Some "fast" -> q <> Some "balanced" -> mode_of_query q = mode_smart.
Proof.
  intros Hf Hb. unfold mode_of_query. destruct q as [s|]; [|reflexivity].
  destruct (String.eqb s "") eqn:E; [reflexivity|].
  destruct (String.eqb s "fast") eqn:Ef; [apply String.eqb_eq in Ef; subst; contradiction|].
  destruct (String.eqb s "balanced") eqn:Eb; [apply String.eqb_eq in Eb; subst; contradiction|].
  reflexivity.
Qed.

(** After [clearCache] the cache statistics report size 0, every read
    misses, and the next call of either tier recomputes its result. *)
Theorem clearCache_empties (svc : Services) (tier : Tier) (input : PredictionInput) (w : World) :
  let w' := snd (clearCache w) in
  fst (clearCache w) = Ok tt /\ clock w' = clock w /\
  getCacheStats w' = (Ok {| size := 0; hitRate := 85 # 100 |}, w') /\
  (forall key, getCachedPrediction key w' = (Ok None, w')) /\
  runTier svc tier input w' = computeTier svc tier input w'.
Proof.
  cbv zeta. split; [reflexivity|]. split; [reflexivity|]. split; [reflexivity|]. split.
  - intros key. rewrite getCachedPrediction_live. reflexivity.
  - rewrite runTier_eq. reflexivity.
Qed.

(** A read right after [cacheResult key r] (same clock) returns [r]
    marked [fromCache = true], even when the write evicted the oldest
    entry, as long as the cache held at most [CACHE_CAPACITY] entries
    before the write; the cache then still holds at most that many. *)
Theorem cacheResult_then_get (key : string) (r : FastPredictionResult) (w : World) :
  (map_size (predictionCache w) <= CACHE_CAPACITY)%nat ->
  let w' := snd (cacheResult key r w) in
  getCachedPrediction key w' = (Ok (Some (with_fromCache true r)), w') /\
  (map_size (predictionCache w') <= CACHE_CAPACITY)%nat.
Proof.
  intros Hc. cbv zeta. rewrite cacheResult_eq. simpl snd. split.
  - rewrite getCachedPrediction_live. unfold lookup_live. simpl.
    rewrite cache_after_insert_get_same by exact Hc. simpl.
    rewrite Z.sub_diag. reflexivity.
  - apply cache_after_insert_size. exact Hc.
Qed.

(** A write of a new key into the full cache [demo_full_world]: it evicts
    the oldest key, and the new entry is read back. *)
Lemma cacheResult_then_get_witness :
  map_size (predictionCache demo_full_world) = CACHE_CAPACITY /\
  ~ In (demo_key 0)
      (map_keys (predictionCache (snd (cacheResult "new" demo_fast_result demo_full_world)))) /\
  getCachedPrediction "new" (snd (cacheResult "new" demo_fast_result demo_full_world))
    = (Ok (Some (with_fromCache true demo_fast_result)),
       snd (cacheResult "new" demo_fast_result demo_full_world)) /\
  (map_size (predictionCache (snd (cacheResult "new" demo_fast_result demo_full_world)))
     <= CACHE_CAPACITY)%nat.
Proof.
  assert (H : (map_size (predictionCache demo_full_world) <= CACHE_CAPACITY)%nat)
    by (vm_compute; apply le_n).
  split; [vm_compute; reflexivity|].
  split; [vm_compute; intros Hin; repeat (destruct Hin as [Hin|Hin]; [discriminate|]); exact Hin|].
  exact (cacheResult_then_get "new" demo_fast_result demo_full_world H).
Defined.

(** While the feature ensemble fails, no balanced result is ever stored:
    a balanced key absent from the cache stays absent after a call of any
    mode for any input (fast results are stored under keys that never
    collide with a balanced key, and eviction only removes entries), so
    the next balanced call for it asks the ensemble again. *)
Theorem ensemble_failure_not_memoized {rt : JsRuntime} (svc : Services) (input input' : PredictionInput)
    (mode : Mode) (w : World) :
  (forall t i b, generateEnhancedPrediction svc t i b = None) ->
  map_get (balancedCacheKey input) (predictionCache w) = None ->
  map_get (balancedCacheKey input) (predictionCache (snd (predict svc input' mode w))) = None.
Proof.
  intros Hml Hk.
  assert (Hb : forall w0, map_get (balancedCacheKey input) (predictionCache w0) = None ->
            map_get (balancedCacheKey input)
              (predictionCache (snd (generateBalancedPrediction svc input' w0))) = None).
  { intros w0 H0. rewrite generateBalancedPrediction_eq. destruct (lookup_live _ w0); [exact H0|].
    rewrite computeBalancedPrediction_eq. cbv zeta.
    destruct (calculateWinProbability _ _ _ _ _); [rewrite Hml|];
      apply generateFastPrediction_absent; try apply balanced_fast_keys_differ; exact H0. }
  destruct mode; simpl;
    [apply generateFastPrediction_absent; [apply balanced_fast_keys_differ | exact Hk]
    | apply Hb; exact Hk |].
  unfold generateSmartPrediction. destruct (isImportantMatch input');
    [apply Hb; exact Hk
    | apply generateFastPrediction_absent; [apply balanced_fast_keys_differ | exact Hk]].
Qed.

Lemma ensemble_failure_not_memoized_witness :
  map_get (balancedCacheKey (demo_input (Some "ICC World Cup Final") None))
    (predictionCache (snd (predict ml_down_services (demo_input (Some "ICC World Cup Final") None)
                             mode_smart world0))) = None.
Proof.
  exact (ensemble_failure_not_memoized ml_down_services (demo_input (Some "ICC World Cup Final") None)
           (demo_input (Some "ICC World Cup Final") None) mode_smart world0
           (fun _ _ _ => eq_refl) eq_refl).
Defined.

(** While the rating service fails, no call of any mode changes the
    cache: a live entry is returned as is, and a miss ends in the basic
    fallback, which is never stored. *)
Theorem rating_failure_leaves_cache {rt : JsRuntime} (svc : Services) (input : PredictionInput) (mode : Mode)
    (w : World) :
  (forall t a b f, calculateWinProbability svc t a b f = None) ->
  predictionCache (snd (predict svc input mode w)) = predictionCache w.
Proof.
  intros Helo.
  assert (Hf : forall w0, predictionCache (snd (generateFastPrediction svc input w0)) = predictionCache w0).
  { intros w0. rewrite generateFastPrediction_eq. destruct (lookup_live _ w0); [reflexivity|].
    rewrite computeFastPrediction_eq. cbv zeta. rewrite Helo. reflexivity. }
  assert (Hb : forall w0, predictionCache (snd (generateBalancedPrediction svc input w0)) = predictionCache w0).
  { intros w0. rewrite generateBalancedPrediction_eq. destruct (lookup_live _ w0); [reflexivity|].
    rewrite computeBalancedPrediction_eq. cbv zeta. rewrite Helo, Hf. reflexivity. }
  destruct mode; simpl; [apply Hf | apply Hb |].
  unfold generateSmartPrediction. destruct (isImportantMatch input); [apply Hb | apply Hf].
Qed.

Lemma rating_failure_leaves_cache_witness :
  predictionCache (snd (predict outage_services (demo_input None None) mode_balanced demo_world1))
  = predictionCache demo_world1.
Proof.
  exact (rating_failure_leaves_cache outage_services (demo_input None None) mode_balanced demo_world1
           (fun _ _ _ _ => eq_refl)).
Defined.

(** [POST /api/predict/smart] treats every value of the [mode] query
    parameter other than "fast" and "balanced" (absent, empty, "smart",
    or anything else such as "accurate") as smart mode. *)
Theorem smart_route_unknown_mode {rt : JsRuntime} (svc : Services) (input : PredictionInput) (q : option string) :
  q <> Some "fast" -> q <> Some "balanced" ->
  smartRoute svc input q = smartRoute svc input (Some "smart").
Proof.
  intros Hf Hb. unfold smartRoute. rewrite (mode_of_query_smart q Hf Hb). reflexivity.
Qed.

Lemma smart_route_unknown_mode_witness :
  smartRoute demo_services (demo_input None None) (Some "accurate") =
  smartRoute demo_services (demo_input None None) (Some "smart").
Proof.
  apply smart_route_unknown_mode; discriminate.
Defined.

(** Starting from a cache within [CACHE_CAPACITY], a call of any mode
    leaves a cache within [CACHE_CAPACITY] whose keys are still pairwise
    distinct. *)
Theorem predict_cache_bounded {rt : JsRuntime} (svc : Services) (input : PredictionInput) (mode : Mode) (w : World) :
  (map_size (predictionCache w) <= CACHE_CAPACITY)%nat -> NoDup (map_keys (predictionCache w)) ->
  (map_size (predictionCache (snd (predict svc input mode w))) <= CACHE_CAPACITY)%nat /\
  NoDup (map_keys (predictionCache (snd (predict svc input mode w)))).
Proof.
  intros Hs Hd.
  apply (predict_preserves
           (fun c => (map_size c <= CACHE_CAPACITY)%nat /\ NoDup (map_keys c)));
    [|split; assumption].
  intros key v c [Hc Hn]. split; [apply cache_after_insert_size; exact Hc|].
  exact (proj2 (cache_after_insert_keys key v c Hn Hc)).
Qed.

(** A balanced call on the full cache [demo_full_world]: its result is
    stored under a new key, which evicts the oldest entry. *)
Lemma predict_cache_bounded_witness :
  map_size (predictionCache demo_full_world) = CACHE_CAPACITY /\
  ~ In (demo_key 0) (map_keys (predictionCache
      (snd (predict demo_services (demo_input None None) mode_balanced demo_full_world)))) /\
  (map_size (predictionCache
     (snd (predict demo_services (demo_input None None) mode_balanced demo_full_world)))
     <= CACHE_CAPACITY)%nat /\
  NoDup (map_keys (predictionCache
     (snd (predict demo_services (demo_input None None) mode_balanced demo_full_world)))).
Proof.
  assert (H0 : (map_size (predictionCache world0) <= CACHE_CAPACITY)%nat)
    by (vm_compute; apply le_0_n).
  destruct (run_cache_ops_queue (firstn 100 demo_ops) world0 (NoDup_nil _) H0)
    as (_ & _ & Hd & Hs).
  split; [vm_compute; reflexivity|].
  split; [vm_compute; intros Hin; repeat (destruct Hin as [Hin|Hin]; [discriminate|]); exact Hin|].
  exact (predict_cache_bounded demo_services (demo_input None None) mode_balanced
           demo_full_world Hs Hd).
Defined.

(** ** Conversion of EntitySport matches *)

Lemma convertMatch_none {rt : JsRuntime} (env : SportsEnv) (m : EntitySportMatch.t) :
  convertMatch env m = None <-> parseDate env (EntitySportMatch.date_start m) = None.
Proof.
  unfold convertMatch. cbv zeta.
  destruct (parseDate env _); split; intros H; congruence.
Qed.

Lemma str_or_nonempty (o : option string) (d : string) : d <> "" -> str_or o d <> "".
Proof.
  intros Hd. destruct o as [s|]; simpl; [|exact Hd].
  destruct (String.eqb s "") eqn:E; [exact Hd|].
  intros ->. discriminate.
Qed.

Lemma convertMatch_some {rt : JsRuntime} (env : SportsEnv) (m : EntitySportMatch.t) (f : Schema.Fixture) :
  convertMatch env m = Some f -> converted_ok env m f /\ fields_ok f.
Proof.
  unfold convertMatch. cbv zeta.
  destruct (parseDate env _) as [t|] eqn:Ht; [|discriminate].
  intros H. injection H as <-. split.
  - unfold converted_ok. simpl. repeat split; eauto.
  - unfold fields_ok, fixture_categories, fixture_statuses. simpl.
    split; [|split; [|repeat split; repeat apply str_or_nonempty; discriminate]].
    + destruct (EntitySportMatch.competition m) as [c|]; [|simpl; tauto].
      destruct (truthy _); [|simpl; tauto].
      destruct (opt_str_eqb _ _); [simpl; tauto|].
      destruct (_ || _); simpl; tauto.
    + destruct (String.eqb _ "live"); [simpl; tauto|].
      destruct (String.eqb _ "result"); simpl; tauto.
Qed.

Lemma convert_some {rt : JsRuntime} (env : SportsEnv) (ms : list EntitySportMatch.t) (fs : list Schema.Fixture) :
  convertEntitySportMatchesToFixtures env ms = Some fs ->
  Forall2 (converted_ok env) ms fs /\ Forall fields_ok fs.
Proof.
  revert fs. induction ms as [|m ms IH]; intros fs H; simpl in H.
  - injection H as <-. split; constructor.
  - destruct (convertMatch env m) as [f|] eqn:Ef; [|discriminate].
    destruct (convertEntitySportMatchesToFixtures env ms) as [fs'|] eqn:Efs; [|discriminate].
    injection H as <-. destruct (convertMatch_some env m f Ef) as [Hc Hf].
    destruct (IH fs' eq_refl) as [Hc' Hf'].
    split; constructor; assumption.
Qed.

Lemma convert_none {rt : JsRuntime} (env : SportsEnv) (ms : list EntitySportMatch.t) :
  convertEntitySportMatchesToFixtures env ms = None <->
  exists m, In m ms /\ parseDate env (EntitySportMatch.date_start m) = None.
Proof.
  induction ms as [|m ms IH]; simpl.
  - split; [discriminate|]. intros (m & [] & _).
  - destruct (convertMatch env m) eqn:Ef.
    + assert (Hm : parseDate env (EntitySportMatch.date_start m) <> None)
        by (intros Hp; apply convertMatch_none in Hp; congruence).
      destruct (convertEntitySportMatchesToFixtures env ms) eqn:Efs.
      * split; [discriminate|]. intros (m0 & [<-|Hin] & Hp); [contradiction|].
        assert (Hn : Some l = None) by (apply IH; eauto). discriminate.
      * split; [|reflexivity]. intros _. destruct (proj1 IH eq_refl) as (m0 & Hin & Hp).
        exists m0. split; [right; exact Hin | exact Hp].
    + split; [|reflexivity]. intros _. exists m. split; [left; reflexivity|].
      apply convertMatch_none. exact Ef.
Qed.

(** [convertEntitySportMatchesToFixtures] is all or nothing: it throws
    exactly when some match has a [date_start] that does not parse (a
    single bad date discards every match); otherwise it gives one fixture
    per match, in order, with id ["entitysport_" ++ externalId], the
    externalId being the decimal [mid], sport "cricket", and date and time
    taken from the parsed [date_start]. *)
Theorem convertEntitySportMatches_all_or_nothing {rt : JsRuntime} (env : SportsEnv) (ms : list EntitySportMatch.t) :
  (convertEntitySportMatchesToFixtures env ms = None <->
   exists m, In m ms /\ parseDate env (EntitySportMatch.date_start m) = None) /\
  (forall fs, convertEntitySportMatchesToFixtures env ms = Some fs ->
   length fs = length ms /\ Forall2 (converted_ok env) ms fs).
Proof.
  split; [apply convert_none|].
  intros fs H. destruct (convert_some env ms fs H) as [H2 _].
  split; [symmetry; exact (Forall2_length H2) | exact H2].
Qed.

Lemma convertEntitySportMatches_all_or_nothing_witness :
  convertEntitySportMatchesToFixtures (demo_env None)
    [demo_match 1 "2024-12-20 08:00:00"; demo_match 2 "tomorrow"] = None /\
  exists fs, convertEntitySportMatchesToFixtures (demo_env None)
               [demo_match 1 "2024-12-20 08:00:00"] = Some fs /\ length fs = 1%nat.
Proof.
  split.
  - apply (proj2 (proj1 (convertEntitySportMatches_all_or_nothing (demo_env None)
                           [demo_match 1 "2024-12-20 08:00:00"; demo_match 2 "tomorrow"]))).
    exists (demo_match 2 "tomorrow"). split; [right; left; reflexivity | reflexivity].
  - eexists. split; [reflexivity|].
    exact (proj1 (proj2 (convertEntitySportMatches_all_or_nothing (demo_env None)
                           [demo_match 1 "2024-12-20 08:00:00"]) _ eq_refl)).
Defined.

(** Every converted fixture has a category among international, domestic
    and t20, a status among upcoming, live and completed, and non-empty
    series, team names, venue and tournament (each [||] ends in a
    non-empty default). *)
Theorem convert_fields_ok {rt : JsRuntime} (env : SportsEnv) (ms : list EntitySportMatch.t) (fs : list Schema.Fixture) :
  convertEntitySportMatchesToFixtures env ms = Some fs -> Forall fields_ok fs.
Proof. intros H. exact (proj2 (convert_some env ms fs H)). Qed.

Lemma convert_fields_ok_witness :
  exists fs, convertEntitySportMatchesToFixtures (demo_env None)
               [demo_match 1 "2024-12-20 08:00:00"] = Some fs /\ Forall fields_ok fs.
Proof.
  eexists. split; [reflexivity|].
  apply (convert_fields_ok (demo_env None) [demo_match 1 "2024-12-20 08:00:00"]). reflexivity.
Defined.

(** The category of a converted match: a competition category "domestic"
    wins over a "t20" in the title or abbreviation, and a competition
    without a (non-empty) category is "international" whatever its title
    says, e.g. "T20 World Cup". *)
Theorem convertMatch_category {rt : JsRuntime} (env : SportsEnv) (m : EntitySportMatch.t) (f : Schema.Fixture) :
  convertMatch env m = Some f ->
  (opt_field (EntitySportMatch.competition m) EntitySportCompetition.category = Some "domestic" ->
   Schema.category f = "domestic") /\
  (truthy (opt_field (EntitySportMatch.competition m) EntitySportCompetition.category) = false ->
   Schema.category f = "international").
Proof.
  unfold convertMatch. cbv zeta.
  destruct (parseDate env _); [|discriminate]. intros H. injection H as <-. simpl.
  destruct (EntitySportMatch.competition m) as [c|]; simpl; [|split; [discriminate | reflexivity]].
  split.
  - intros ->. reflexivity.
  - intros ->. reflexivity.
Qed.

Lemma convertMatch_category_witness :
  exists f, convertMatch (demo_env None) (demo_match 1 "2024-12-20 08:00:00") = Some f /\
            Schema.category f = "domestic".
Proof.
  eexists. split; [reflexivity|].
  apply (proj1 (convertMatch_category (demo_env None) (demo_match 1 "2024-12-20 08:00:00") _ eq_refl)).
  reflexivity.
Defined.

(** ** The mock generators and [fetchCricketFixtures] *)

Ltac not_in_literals H :=
  simpl in H; repeat (destruct H as [H|H]; [discriminate H|]); destruct H.

Lemma existsb_not_In (k : string) (l : list string) :
  ~ In k l -> existsb (String.eqb k) l = false.
Proof.
  intros H. destruct (existsb (String.eqb k) l) eqn:E; [|reflexivity].
  apply existsb_eqb_In in E. contradiction.
Qed.

Lemma mockCricketTeams_some (category : string) :
  ~ In category object_prototype_keys -> exists teams, mockCricketTeams category = Some teams.
Proof.
  intros H. unfold mockCricketTeams. rewrite (existsb_not_In _ _ H).
  repeat (destruct (String.eqb _ _); [eexists; reflexivity|]). eexists; reflexivity.
Qed.

Lemma mockTennisPlayers_some (category : string) :
  ~ In category object_prototype_keys -> exists players, mockTennisPlayers category = Some players.
Proof.
  intros H. unfold mockTennisPlayers. rewrite (existsb_not_In _ _ H).
  repeat (destruct (String.eqb _ _); [eexists; reflexivity|]). eexists; reflexivity.
Qed.

Lemma prototype_key_facts (category : string) :
  In category object_prototype_keys ->
  ~ In category fixture_categories /\ category <> "all" /\
  ~ In category ["atp"; "wta"; "itf"] /\ existsb (String.eqb category) object_prototype_keys = true.
Proof.
  intros H. split; [|split; [|split]].
  - intros H'. unfold fixture_categories in H'. simpl in H'.
    repeat (destruct H' as [<-|H']; [not_in_literals H|]). exact H'.
  - intros ->. not_in_literals H.
  - intros H'. simpl in H'.
    repeat (destruct H' as [<-|H']; [not_in_literals H|]). exact H'.
  - apply existsb_eqb_In. exact H.
Qed.

Lemma mock_prototype_key (env : SportsEnv) (category : string) :
  In category object_prototype_keys ->
  generateMockCricketFixtures env category = None /\ generateMockTennisFixtures env category = None.
Proof.
  intros H. destruct (prototype_key_facts category H) as (Hc & _ & Ht & Hx).
  unfold generateMockCricketFixtures, generateMockTennisFixtures,
    mockCricketTeams, mockTennisPlayers. rewrite Hx.
  unfold fixture_categories in Hc. simpl in Hc, Ht.
  destruct (String.eqb_spec category "international"); [subst; tauto|].
  destruct (String.eqb_spec category "domestic"); [subst; tauto|].
  destruct (String.eqb_spec category "t20"); [subst; tauto|].
  destruct (String.eqb_spec category "atp"); [subst; tauto|].
  destruct (String.eqb_spec category "wta"); [subst; tauto|].
  destruct (String.eqb_spec category "itf"); [subst; tauto|].
  split; reflexivity.
Qed.

Lemma append_prefix_inj (p s1 s2 : string) : p ++ s1 = p ++ s2 -> s1 = s2.
Proof.
  induction p as [|c p IH]; simpl; intros H; [exact H|].
  injection H as H. exact (IH H).
Qed.

Lemma NoDup_map_injective {A B} (f : A -> B) (l : list A) :
  (forall x y, f x = f y -> x = y) -> NoDup l -> NoDup (map f l).
Proof.
  intros Hf Hl. induction Hl as [|a l Ha Hl IH]; simpl; constructor; [|exact IH].
  intros Hin. apply in_map_iff in Hin. destruct Hin as (x & Hx & Hin).
  apply Hf in Hx. subst x. contradiction.
Qed.

Lemma indices_distinct :
  NoDup (map number_to_string (seq 0 8)).
Proof.
  simpl. repeat (constructor; [intros H; not_in_literals H|]). constructor.
Qed.

Lemma prefixed_indices_distinct (p q : string) (n : nat) :
  (n <= 8)%nat -> NoDup (map (fun i => p ++ q ++ "_" ++ number_to_string i) (seq 0 n)).
Proof.
  intros Hn.
  rewrite <- (map_map number_to_string (fun s => p ++ q ++ "_" ++ s)).
  apply NoDup_map_injective.
  - intros x y H. apply append_prefix_inj, append_prefix_inj, append_prefix_inj in H. exact H.
  - assert (Hs : seq 0 8 = (seq 0 n ++ seq n (8 - n))%list)
      by (rewrite <- seq_app; f_equal; lia).
    pose proof indices_distinct as Hd. rewrite Hs, map_app in Hd.
    exact (NoDup_app_remove_r _ _ Hd).
Qed.

Lemma promise_all_enhance (env : SportsEnv) (l : list Schema.Fixture) :
  promise_all (map (enhanceOrKeep env) l) =
  Some (map (fun f => match enhanceFixtureWithPredictions env f with
                      | Some g => g
                      | None => f
                      end) l).
Proof.
  induction l as [|f l IH]; simpl; [reflexivity|]. rewrite IH. unfold enhanceOrKeep.
  destruct (enhanceFixtureWithPredictions env f); reflexivity.
Qed.

Lemma enhance_Forall2 (env : SportsEnv) (l : list Schema.Fixture) :
  Forall2 (fun f g => enhanceFixtureWithPredictions env f = Some g \/
                      (enhanceFixtureWithPredictions env f = None /\ g = f))
    l (map (fun f => match enhanceFixtureWithPredictions env f with
                     | Some g => g
                     | None => f
                     end) l).
Proof.
  induction l as [|f l IH]; simpl; constructor; [|exact IH].
  destruct (enhanceFixtureWithPredictions env f); [left | right]; auto.
Qed.

Lemma filterByCategory_prototype_key (category : string) (all : list Schema.Fixture) :
  In category object_prototype_keys -> Forall fields_ok all -> filterByCategory category all = [].
Proof.
  intros H Hall. destruct (prototype_key_facts category H) as (Hc & Ha & _).
  unfold filterByCategory. destruct (String.eqb_spec category "all"); [contradiction|].
  induction Hall as [|f l [Hf _] _ IH]; simpl; [reflexivity|].
  destruct (String.eqb_spec (Schema.category f) category) as [E|_]; [|exact IH].
  rewrite E in Hf. contradiction.
Qed.

(** [fetchCricketFixtures] always resolves to a non-empty list for a
    category that is not a property name of [Object.prototype]: either one
    fixture per real fixture of the category (all of them for "all"), in
    order, each the enhanced fixture or, when its enhancement rejected, the
    fixture itself; or, when the client rejects, the conversion throws or
    no real fixture has the category, the mock fixtures. *)
Theorem fetchCricketFixtures_resolves {rt : JsRuntime} (env : SportsEnv) (category : string) :
  ~ In category object_prototype_keys ->
  exists fixtures, fetchCricketFixtures env category = Some fixtures /\ fixtures <> [] /\
    ((exists ms all, getUpcomingMatches env = Some ms /\
                     convertEntitySportMatchesToFixtures env ms = Some all /\
                     filterByCategory category all <> [] /\
                     Forall2 (fun f g => enhanceFixtureWithPredictions env f = Some g \/
                                         (enhanceFixtureWithPredictions env f = None /\ g = f))
                       (filterByCategory category all) fixtures) \/
     generateMockCricketFixtures env category = Some fixtures).
Proof.
  intros Hk. destruct (mockCricketTeams_some category Hk) as [teams Ht].
  assert (Hm : generateMockCricketFixtures env category =
               Some (map (mockCricketFixture env category teams (mockCricketTournaments category))
                         (seq 0 8)))
    by (unfold generateMockCricketFixtures; rewrite Ht; reflexivity).
  unfold fetchCricketFixtures. cbv zeta.
  destruct (getUpcomingMatches env) as [ms|] eqn:Eu;
    [|rewrite Hm; eexists; split; [reflexivity|]; split; [discriminate | right; reflexivity]].
  destruct (convertEntitySportMatchesToFixtures env ms) as [all|] eqn:Ec;
    [|rewrite Hm; eexists; split; [reflexivity|]; split; [discriminate | right; reflexivity]].
  destruct (Nat.ltb 0 (length (filterByCategory category all))) eqn:El.
  - rewrite promise_all_enhance. eexists. split; [reflexivity|].
    apply Nat.ltb_lt in El.
    assert (Hne : filterByCategory category all <> [])
      by (intros E; rewrite E in El; simpl in El; lia).
    split.
    + intros E. apply map_eq_nil in E. contradiction.
    + left. exists ms, all. split; [reflexivity|]. split; [exact Ec|]. split; [exact Hne|].
      apply enhance_Forall2.
  - rewrite Hm. eexists. split; [reflexivity|]. split; [discriminate | right; reflexivity].
Qed.

Lemma fetchCricketFixtures_resolves_witness :
  exists fixtures,
    fetchCricketFixtures (demo_env (Some [demo_match 1 "2024-12-20 08:00:00"])) "domestic"
      = Some fixtures /\ fixtures <> [].
Proof.
  destruct (fetchCricketFixtures_resolves (demo_env (Some [demo_match 1 "2024-12-20 08:00:00"]))
              "domestic" ltac:(intros H; not_in_literals H)) as (fixtures & H1 & H2 & _).
  exists fixtures. split; assumption.
Defined.

(** One EntitySport match whose [date_start] does not parse makes
    [fetchCricketFixtures] serve the mock fixtures, whatever the other
    matches are. *)
Theorem fetchCricketFixtures_bad_date_mock {rt : JsRuntime} (env : SportsEnv) (category : string)
    (ms : list EntitySportMatch.t) (m : EntitySportMatch.t) :
  getUpcomingMatches env = Some ms -> In m ms ->
  parseDate env (EntitySportMatch.date_start m) = None ->
  fetchCricketFixtures env category = generateMockCricketFixtures env category.
Proof.
  intros Hu Hin Hp. unfold fetchCricketFixtures. cbv zeta. rewrite Hu.
  rewrite (proj2 (convert_none env ms) (ex_intro _ m (conj Hin Hp))). reflexivity.
Qed.

Lemma fetchCricketFixtures_bad_date_mock_witness :
  fetchCricketFixtures
    (demo_env (Some [demo_match 1 "2024-12-20 08:00:00"; demo_match 2 "tomorrow"])) "domestic" =
  generateMockCricketFixtures
    (demo_env (Some [demo_match 1 "2024-12-20 08:00:00"; demo_match 2 "tomorrow"])) "domestic".
Proof.
  apply (fetchCricketFixtures_bad_date_mock _ "domestic"
           [demo_match 1 "2024-12-20 08:00:00"; demo_match 2 "tomorrow"]
           (demo_match 2 "tomorrow")); [reflexivity | right; left; reflexivity | reflexivity].
Defined.

(** For a category that is a property name of [Object.prototype] (such as
    "toString" or "constructor") both mock generators throw a [TypeError],
    so [fetchCricketFixtures] rejects whatever EntitySport returns (no
    converted fixture has such a category) and so does
    [fetchTennisFixtures]. *)
Theorem fetchFixtures_prototype_key_rejects {rt : JsRuntime} (env : SportsEnv) (category : string) :
  In category object_prototype_keys ->
  fetchCricketFixtures env category = None /\ fetchTennisFixtures env category = None.
Proof.
  intros H. destruct (mock_prototype_key env category H) as [Hc Ht].
  split; [|exact Ht].
  unfold fetchCricketFixtures. cbv zeta. rewrite Hc.
  destruct (getUpcomingMatches env) as [ms|]; [|reflexivity].
  destruct (convertEntitySportMatchesToFixtures env ms) as [all|] eqn:Ec; [|reflexivity].
  rewrite (filterByCategory_prototype_key category all H (proj2 (convert_some env ms all Ec))).
  reflexivity.
Qed.

Lemma fetchFixtures_prototype_key_rejects_witness :
  fetchCricketFixtures (demo_env (Some [demo_match 1 "2024-12-20 08:00:00"])) "toString" = None.
Proof.
  exact (proj1 (fetchFixtures_prototype_key_rejects
                  (demo_env (Some [demo_match 1 "2024-12-20 08:00:00"])) "toString"
                  ltac:(simpl; tauto))).
Defined.

(** Outside the property names of [Object.prototype], the mock cricket
    generator gives 8 fixtures with the distinct ids ["cricket_<category>_<i>"],
    sport cricket and the requested category: the first live and the other
    seven upcoming, the first three dated today and the others on the five
    following days. *)
Theorem generateMockCricketFixtures_shape (env : SportsEnv) (category : string) :
  ~ In category object_prototype_keys ->
  exists fixtures, generateMockCricketFixtures env category = Some fixtures /\
    map Schema.id fixtures =
      map (fun i => "cricket_" ++ category ++ "_" ++ number_to_string i) (seq 0 8) /\
    NoDup (map Schema.id fixtures) /\
    map Schema.status fixtures = "live" :: repeat "upcoming" 7 /\
    map Schema.date fixtures = map (isoDateInDays env) [0; 0; 0; 1; 2; 3; 4; 5]%nat /\
    Forall (fun f => Schema.sport f = "cricket" /\ Schema.category f = category) fixtures.
Proof.
  intros Hk. destruct (mockCricketTeams_some category Hk) as [teams Ht].
  unfold generateMockCricketFixtures. rewrite Ht. eexists. split; [reflexivity|].
  assert (Hid : map Schema.id (map (mockCricketFixture env category teams
                                      (mockCricketTournaments category)) (seq 0 8)) =
                map (fun i => "cricket_" ++ category ++ "_" ++ number_to_string i) (seq 0 8))
    by reflexivity.
  split; [exact Hid|]. split; [rewrite Hid; apply prefixed_indices_distinct; lia|].
  split; [reflexivity|]. split; [reflexivity|].
  repeat constructor.
Qed.

Lemma generateMockCricketFixtures_shape_witness :
  exists fixtures, generateMockCricketFixtures (demo_env None) "domestic" = Some fixtures /\
    NoDup (map Schema.id fixtures).
Proof.
  destruct (generateMockCricketFixtures_shape (demo_env None) "domestic"
              ltac:(intros H; not_in_literals H)) as (fixtures & H1 & _ & H3 & _).
  exists fixtures. split; assumption.
Defined.

(** A category with no team list of its own (neither international,
    domestic nor t20, nor a property name of [Object.prototype]) gets the
    international mock fixtures: same teams, series, tournaments, venues,
    dates, times and statuses, only relabelled with the requested
    category in [id] and [category]. *)
Theorem mockCricket_unknown_category (env : SportsEnv) (category : string) :
  ~ In category (object_prototype_keys ++ fixture_categories) ->
  option_map (map (fun f => (Schema.team1 f, Schema.team2 f, Schema.series f, Schema.tournament f,
                             Schema.venue f, Schema.date f, Schema.time f, Schema.status f)))
    (generateMockCricketFixtures env category) =
  option_map (map (fun f => (Schema.team1 f, Schema.team2 f, Schema.series f, Schema.tournament f,
                             Schema.venue f, Schema.date f, Schema.time f, Schema.status f)))
    (generateMockCricketFixtures env "international").
Proof.
  intros Hk.
  assert (Hp : ~ In category object_prototype_keys) by (intros H; apply Hk, in_or_app; left; exact H).
  assert (Hc : ~ In category fixture_categories) by (intros H; apply Hk, in_or_app; right; exact H).
  unfold fixture_categories in Hc. simpl in Hc.
  unfold generateMockCricketFixtures, mockCricketTeams, mockCricketTournaments.
  rewrite (existsb_not_In _ _ Hp).
  destruct (String.eqb_spec category "international"); [subst; tauto|].
  destruct (String.eqb_spec category "domestic"); [subst; tauto|].
  destruct (String.eqb_spec category "t20"); [subst; tauto|].
  reflexivity.
Qed.

Lemma mockCricket_unknown_category_witness :
  option_map (map (fun f => (Schema.team1 f, Schema.team2 f, Schema.series f, Schema.tournament f,
                             Schema.venue f, Schema.date f, Schema.time f, Schema.status f)))
    (generateMockCricketFixtures (demo_env None) "odi") =
  option_map (map (fun f => (Schema.team1 f, Schema.team2 f, Schema.series f, Schema.tournament f,
                             Schema.venue f, Schema.date f, Schema.time f, Schema.status f)))
    (generateMockCricketFixtures (demo_env None) "international").
Proof.
  exact (mockCricket_unknown_category (demo_env None) "odi" ltac:(intros H; not_in_literals H)).
Defined.

(** [fetchTennisFixtures] outside the property names of
    [Object.prototype]: 6 fixtures with the distinct ids
    ["tennis_<category>_<i>"], sport tennis and the requested category,
    the first live and the others upcoming, on today and the five
    following days; a category other than atp, wta and itf gets the ATP
    players. *)
Theorem fetchTennisFixtures_shape (env : SportsEnv) (category : string) :
  ~ In category object_prototype_keys ->
  exists fixtures, fetchTennisFixtures env category = Some fixtures /\
    map Schema.id fixtures =
      map (fun i => "tennis_" ++ category ++ "_" ++ number_to_string i) (seq 0 6) /\
    NoDup (map Schema.id fixtures) /\
    map Schema.status fixtures = "live" :: repeat "upcoming" 5 /\
    map Schema.date fixtures = map (isoDateInDays env) (seq 0 6) /\
    Forall (fun f => Schema.sport f = "tennis" /\ Schema.category f = category) fixtures /\
    (~ In category ["atp"; "wta"; "itf"] ->
     map (fun f => (Schema.team1 f, Schema.team2 f)) fixtures =
       map (fun i => nth (i mod 4) atpPlayers ("", "")) (seq 0 6)).
Proof.
  intros Hk. destruct (mockTennisPlayers_some category Hk) as [players Hp].
  unfold fetchTennisFixtures, generateMockTennisFixtures. rewrite Hp. eexists. split; [reflexivity|].
  assert (Hid : map Schema.id (map (mockTennisFixture env category players
                                      (mockTennisTournaments category)) (seq 0 6)) =
                map (fun i => "tennis_" ++ category ++ "_" ++ number_to_string i) (seq 0 6))
    by reflexivity.
  split; [exact Hid|]. split; [rewrite Hid; apply prefixed_indices_distinct; lia|].
  split; [reflexivity|]. split; [reflexivity|]. split; [repeat constructor|].
  intros Hc. simpl in Hc. revert Hp. unfold mockTennisPlayers.
  rewrite (existsb_not_In _ _ Hk).
  destruct (String.eqb_spec category "atp"); [subst; tauto|].
  destruct (String.eqb_spec category "wta"); [subst; tauto|].
  destruct (String.eqb_spec category "itf"); [subst; tauto|].
  intros H. injection H as <-. reflexivity.
Qed.

Lemma fetchTennisFixtures_shape_witness :
  exists fixtures, fetchTennisFixtures (demo_env None) "challenger" = Some fixtures /\
    map (fun f => (Schema.team1 f, Schema.team2 f)) fixtures =
      map (fun i => nth (i mod 4) atpPlayers ("", "")) (seq 0 6).
Proof.
  destruct (fetchTennisFixtures_shape (demo_env None) "challenger"
              ltac:(intros H; not_in_literals H)) as (fixtures & H1 & _ & _ & _ & _ & _ & H7).
  exists fixtures. split; [exact H1|]. apply H7. intros H; not_in_literals H.
Defined.

(** ** The dashboard statistics and the client pages *)

Lemma status_counts_le (l : list Schema.Fixture) :
  (length (filter (fun f => String.eqb (Schema.status f) "live") l) +
   length (filter (fun f => String.eqb (Schema.status f) "upcoming") l) +
   length (filter (fun f => String.eqb (Schema.status f) "completed") l) <= length l)%nat /\
  (Forall (fun f => In (Schema.status f) fixture_statuses) l ->
   length (filter (fun f => String.eqb (Schema.status f) "live") l) +
   length (filter (fun f => String.eqb (Schema.status f) "upcoming") l) +
   length (filter (fun f => String.eqb (Schema.status f) "completed") l) = length l)%nat.
Proof.
  induction l as [|a l [IH1 IH2]]; simpl; [split; [lia | reflexivity]|].
  destruct (String.eqb_spec (Schema.status a) "live");
  destruct (String.eqb_spec (Schema.status a) "upcoming");
  destruct (String.eqb_spec (Schema.status a) "completed");
    try congruence; simpl; (split; [lia|]); intros H; inversion H as [|x y Ha Hl]; subst;
    specialize (IH2 Hl); try lia.
  unfold fixture_statuses in Ha. simpl in Ha. intuition congruence.
Qed.

Lemma sport_counts_le (l : list Schema.Fixture) :
  (length (filter (fun f => String.eqb (Schema.sport f) "cricket") l) +
   length (filter (fun f => String.eqb (Schema.sport f) "tennis") l) <= length l)%nat.
Proof.
  induction l as [|a l IH]; simpl; [lia|].
  destruct (String.eqb_spec (Schema.sport a) "cricket");
  destruct (String.eqb_spec (Schema.sport a) "tennis"); try congruence; simpl; lia.
Qed.

(** The counters of [GET /api/dashboard/stats] never add up to more than
    the total: live + upcoming + completed <= total and cricket + tennis
    <= total, with live + upcoming + completed = total when every fixture
    has one of those three statuses, as every converted fixture does. *)
Theorem dashboardStats_counts (allFixtures : list Schema.Fixture) (t : string) :
  let s := dashboardStats allFixtures t in
  (liveMatches s + upcomingMatches s + completedMatches s <= totalFixtures s)%nat /\
  (cricketFixtures s + tennisFixtures s <= totalFixtures s)%nat /\
  (Forall (fun f => In (Schema.status f) fixture_statuses) allFixtures ->
   liveMatches s + upcomingMatches s + completedMatches s = totalFixtures s)%nat.
Proof.
  cbv zeta. simpl. split; [apply status_counts_le|]. split; [apply sport_counts_le|].
  apply status_counts_le.
Qed.

Lemma dashboardStats_counts_witness :
  exists fs, convertEntitySportMatchesToFixtures (demo_env None)
               [demo_match 1 "2024-12-20 08:00:00"] = Some fs /\
    (liveMatches (dashboardStats fs "2023-11-14T22:13:20.000Z") +
     upcomingMatches (dashboardStats fs "2023-11-14T22:13:20.000Z") +
     completedMatches (dashboardStats fs "2023-11-14T22:13:20.000Z") =
     totalFixtures (dashboardStats fs "2023-11-14T22:13:20.000Z"))%nat.
Proof.
  eexists. split; [reflexivity|].
  apply (dashboardStats_counts _ "2023-11-14T22:13:20.000Z").
  eapply Forall_impl; [|exact (proj2 (convert_some (demo_env None)
                                 [demo_match 1 "2024-12-20 08:00:00"] _ eq_refl))].
  intros f Hf. exact (proj1 (proj2 Hf)).
Defined.

(** On the mock cricket fixtures, the TodaysMatches page lists exactly
    the first three (one live, two upcoming), provided the ISO date of
    today differs from those of the five following days. *)
Theorem todays_matches_of_mock_cricket (env : SportsEnv) (category : string) :
  ~ In category object_prototype_keys ->
  (forall n, (1 <= n <= 5)%nat -> isoDateInDays env n <> isoDateInDays env 0) ->
  exists fixtures, generateMockCricketFixtures env category = Some fixtures /\
    getTodaysMatches (isoDateInDays env 0) fixtures = firstn 3 fixtures /\
    map Schema.status (firstn 3 fixtures) = ["live"; "upcoming"; "upcoming"].
Proof.
  intros Hk Hd. destruct (mockCricketTeams_some category Hk) as [teams Ht].
  unfold generateMockCricketFixtures. rewrite Ht. eexists. split; [reflexivity|].
  assert (Hn : forall n, (1 <= n <= 5)%nat ->
            String.eqb (isoDateInDays env n) (isoDateInDays env 0) = false)
    by (intros n Hn; apply String.eqb_neq, Hd, Hn).
  split; [|reflexivity].
  unfold getTodaysMatches. simpl. rewrite String.eqb_refl.
  rewrite (Hn 1%nat), (Hn 2%nat), (Hn 3%nat), (Hn 4%nat), (Hn 5%nat) by lia.
  reflexivity.
Qed.

Lemma todays_matches_of_mock_cricket_witness :
  exists fixtures, generateMockCricketFixtures (demo_env None) "t20" = Some fixtures /\
    getTodaysMatches "2023-11-14" fixtures = firstn 3 fixtures.
Proof.
  destruct (todays_matches_of_mock_cricket (demo_env None) "t20"
              ltac:(intros H; not_in_literals H)
              ltac:(intros n Hn; destruct n as [|[|[|[|[|[|n]]]]]]; try lia; discriminate))
    as (fixtures & H1 & H2 & _).
  exists fixtures. split; assumption.
Defined.

(** A quick predict that reaches the rating service (no live cache entry
    for its fast key, rating available) gets a fresh Elo result with no
    risk factors and accuracy 75 for an international fixture, 78 for any
    other category. *)
Theorem quick_predict_fresh_fast {rt : JsRuntime} (svc : Services) (f : Schema.Fixture) (w : World) (p : WinProbability) :
  lookup_live (fastCacheKey (quickPredictionInput f)) w = None ->
  calculateWinProbability svc (clock w) (team1Id (quickPredictionInput f))
    (team2Id (quickPredictionInput f)) (format (quickPredictionInput f)) = Some p ->
  exists r w', generateFastPrediction svc (quickPredictionInput f) w = (Ok r, w') /\
    riskFactors r = [] /\ engineUsed r = "Elo Rating System" /\
    accuracy r = (if String.eqb (Schema.category f) "international" then 75 else 78)%Z.
Proof.
  intros Hl Hp. rewrite generateFastPrediction_eq, Hl, computeFastPrediction_eq. cbv zeta.
  rewrite Hp. eexists. eexists. split; [reflexivity|].
  unfold fastResult. simpl. unfold quickPredictFormat.
  destruct (String.eqb_spec (Schema.category f) "t20") as [->|]; [repeat split|].
  destruct (String.eqb (Schema.category f) "international"); repeat split.
Qed.

Lemma quick_predict_fresh_fast_witness :
  exists r w', generateFastPrediction draw_services
                 (quickPredictionInput
                    (mockCricketFixture (demo_env None) "international" internationalTeams
                       internationalTournaments 1)) world0 = (Ok r, w') /\
    accuracy r = 75%Z.
Proof.
  destruct (quick_predict_fresh_fast draw_services
              (mockCricketFixture (demo_env None) "international" internationalTeams
                 internationalTournaments 1) world0
              (mkWinProbability (59 # 100) (39 # 100) (2 # 100)) eq_refl eq_refl)
    as (r & w' & H1 & _ & _ & H4).
  exists r, w'. split; [exact H1 | exact H4].
Defined.
